(** * gift_upgrader: the scan / decide / upgrade engine

    A shallow embedding of [gift_upgrader.py].  Python values that reach the
    engine are a small inductive type, exceptions are an inductive type with
    the subclass test the handlers use, the module-level dictionary [STATE]
    is a [gmap string Z], and everything that touches the outside (Telethon
    requests, the audit file, the state file, the clock) goes through an
    environment record threaded by a state-and-exception monad. *)

From Stdlib Require Import ZArith Lia Bool List Ascii String.
From Stdlib Require Import SpecFloat.
From stdpp Require Import base strings gmap list pretty.

Local Open Scope string_scope.
Local Open Scope list_scope.
Local Open Scope Z_scope.

Local Set Warnings "-register-all".

(** ** Exceptions *)

Module Exn.

(** The exception classes the handlers of the program tell apart.
    [FloodWaitError] is a subclass of [RPCError] in Telethon, so an
    [except RPCError] clause catches both. *)
Inductive exn : Type :=
| TypeError (msg : string)
| ValueError (msg : string)
| OverflowError (msg : string)
| RuntimeError (msg : string)
| OSError (msg : string)
| RPCError (msg : string)
| FloodWaitError (seconds : Z)
| OtherError (msg : string).

Definition is_TypeError (e : exn) : bool :=
  match e with TypeError _ => true | _ => false end.

Definition is_RPCError (e : exn) : bool :=
  match e with RPCError _ | FloodWaitError _ => true | _ => false end.

Definition is_FloodWaitError (e : exn) : bool :=
  match e with FloodWaitError _ => true | _ => false end.

(** [str(e)] *)
Definition exn_str (e : exn) : string :=
  match e with
  | TypeError m | ValueError m | OverflowError m | RuntimeError m
  | OSError m | RPCError m | OtherError m => m
  | FloodWaitError s => "A wait of " +:+ pretty s +:+ " seconds is required"
  end.

Inductive result (A : Type) : Type :=
| Ok (a : A)
| Raise (e : exn).
Arguments Ok {A} a.
Arguments Raise {A} e.

Definition is_Ok {A} (r : result A) : bool :=
  match r with Ok _ => true | Raise _ => false end.

End Exn.
Export Exn.

(** ** Python values *)

Module Py.

(** The values an attribute of a TL object can hold, as far as the
    engine inspects them.  An object carries its attributes, the
    dictionary its [to_dict] method returns (when it has one), and the
    value of its [__int__] conversion (when it has one). *)
Inductive pyval : Type :=
| PyNone
| PyBool (b : bool)
| PyInt (z : Z)
| PyFloat (f : spec_float)
| PyStr (s : string)
| PyObj (fields : list (string * pyval))
        (to_dict : option (list (string * pyval)))
        (dunder_int : option Z).

(** [getattr(x, name, None)] on an attribute list, and [d[k]] on the
    dictionary of [to_dict]. *)
Fixpoint assoc (k : string) (l : list (string * pyval)) : option pyval :=
  match l with
  | [] => None
  | (k', v) :: l' => if String.eqb k k' then Some v else assoc k l'
  end.

Definition is_None (v : pyval) : bool :=
  match v with PyNone => true | _ => false end.

(** [bool(v)] *)
Definition truthy (v : pyval) : bool :=
  match v with
  | PyNone => false
  | PyBool b => b
  | PyInt z => negb (z =? 0)
  | PyFloat f =>
      match f with S754_zero _ => false | _ => true end
  | PyStr s => negb (String.eqb s "")
  | PyObj _ _ _ => true
  end.

(** [int(f)] for a float: truncation toward zero; not-a-number and the
    infinities raise. *)
Definition int_of_float (f : spec_float) : result Z :=
  match f with
  | S754_zero _ => Ok 0
  | S754_nan => Raise (ValueError "cannot convert float NaN to integer")
  | S754_infinity _ =>
      Raise (OverflowError "cannot convert float infinity to integer")
  | S754_finite s m e =>
      let mag := if 0 <=? e then Z.shiftl (Z.pos m) e
                 else Z.shiftr (Z.pos m) (- e) in
      Ok (if s then - mag else mag)
  end.


(** The string functions of the Python runtime the engine calls:
    [float(s)], [int(s)], [s.lower()] and [s.isdigit()]. *)
Record builtins : Type := {
  float_of_str : string -> result spec_float;
  int_of_str : string -> result Z;
  str_lower : string -> string;
  str_isdigit : string -> bool;
}.

Section Int.
Variable B : builtins.

(** [int(v)] *)
Definition py_int (v : pyval) : result Z :=
  match v with
  | PyNone =>
      Raise (TypeError "int() argument must be a string or a number")
  | PyBool b => Ok (if b then 1 else 0)
  | PyInt z => Ok z
  | PyFloat f => int_of_float f
  | PyStr s => int_of_str B s
  | PyObj _ _ (Some z) => Ok z
  | PyObj _ _ None =>
      Raise (TypeError "int() argument must be a string or a number")
  end.

(** [for attr in names: v = getattr(x, attr, None)
       if v is not None:
           try: return int(v)
           except Exception: pass]
    The result is [Some z] when the loop returned [z]. *)
Fixpoint first_attr_int (fields : list (string * pyval))
  (names : list string) : option Z :=
  match names with
  | [] => None
  | n :: rest =>
      let v := match assoc n fields with Some v => v | None => PyNone end in
      if is_None v then first_attr_int fields rest
      else match py_int v with
           | Ok z => Some z
           | Raise _ => first_attr_int fields rest
           end
  end.

(** [for k in names:
       if k in d:
           try: return int(d[k])
           except Exception: pass] *)
Fixpoint first_key_int (d : list (string * pyval))
  (names : list string) : option Z :=
  match names with
  | [] => None
  | k :: rest =>
      match assoc k d with
      | Some v => match py_int v with
                  | Ok z => Some z
                  | Raise _ => first_key_int d rest
                  end
      | None => first_key_int d rest
      end
  end.

Definition amount_fields : list string := ["amount"; "value"; "units"].

(** [as_int_stars(x)] *)
Definition as_int_stars (x : pyval) : result Z :=
  match x with
  | PyNone => Ok 0
  | PyBool _ | PyInt _ | PyFloat _ => py_int x
  | PyStr s =>
      match float_of_str B s with
      | Ok f => match int_of_float f with
                | Ok z => Ok z
                | Raise _ => Ok 0
                end
      | Raise _ => Ok 0
      end
  | PyObj fields to_dict _ =>
      match first_attr_int fields amount_fields with
      | Some z => Ok z
      | None =>
          match
            match to_dict with
            | Some d => first_key_int d amount_fields
            | None => None
            end
          with
          | Some z => Ok z
          | None => match py_int x with
                    | Ok z => Ok z
                    | Raise _ => Ok 0
                    end
          end
      end
  end.
End Int.

End Py.
Export Py.

(** ** Telegram objects and requests *)

Module TL.

(** A resolved peer.  [peer_str] is [str(peer)]. *)
Inductive peer : Type :=
| InputPeerSelf
| InputPeerEntity (repr : string).

Definition peer_str (p : peer) : string :=
  match p with
  | InputPeerSelf => "InputPeerSelf()"
  | InputPeerEntity r => r
  end.

(** The inner gift descriptor [saved.gift]; [None] in a field is an absent
    attribute, [Some PyNone] an attribute holding [None]. *)
Record star_gift : Type := {
  sg_upgrade_stars : option pyval;
}.

Record saved_gift : Type := {
  upgrade_stars : option pyval;
  gift : option star_gift;
  prepaid_upgrade_hash : option pyval;
  can_upgrade : option pyval;
  msg_id : option Z;
  saved_id : option Z;
}.

Inductive input_saved_gift : Type :=
| InputSavedStarGiftChat (p : peer) (saved_id : Z)
| InputSavedStarGiftUser (msg_id : Z).

Inductive invoice : Type :=
| InputInvoiceStarGiftUpgrade (stargift : input_saved_gift)
                              (keep_original_details : option bool).

Inductive request : Type :=
| GetStarsStatusRequest (p : option peer)
| GetSavedStarGiftsRequest (p : peer) (offset : string) (limit : Z)
                           (exclude_unique : bool)
| UpgradeStarGiftRequest (stargift : input_saved_gift)
                         (keep_original_details : option bool)
| GetPaymentFormRequest (inv : invoice)
| SendStarsFormRequest (form_id : Z) (inv : invoice).

(** The three requests that change something on the remote side. *)
Definition is_mutating (r : request) : bool :=
  match r with
  | UpgradeStarGiftRequest _ _ | GetPaymentFormRequest _
  | SendStarsFormRequest _ _ => true
  | _ => false
  end.

Inductive response : Type :=
| StarsStatus (balance : option pyval)
| SavedStarGifts (gifts : option (list saved_gift))
                 (next_offset : option string)
| PaymentForm (form_id : Z)
| Updates.

(** Which optional keyword arguments the installed TL layer knows.  A
    constructor called with a keyword it does not know raises
    [TypeError]. *)
Record layer : Type := {
  upgrade_has_keep : bool;
  invoice_has_keep : bool;
  status_has_peer : bool;
}.

Definition unexpected_kw : exn :=
  TypeError "__init__() got an unexpected keyword argument".

Definition new_UpgradeStarGiftRequest (L : layer)
  (stargift : input_saved_gift) (keep : option bool) : result request :=
  match keep with
  | Some _ =>
      if upgrade_has_keep L then Ok (UpgradeStarGiftRequest stargift keep)
      else Raise unexpected_kw
  | None => Ok (UpgradeStarGiftRequest stargift None)
  end.

Definition new_InputInvoiceStarGiftUpgrade (L : layer)
  (stargift : input_saved_gift) (keep : option bool) : result invoice :=
  match keep with
  | Some _ =>
      if invoice_has_keep L then Ok (InputInvoiceStarGiftUpgrade stargift keep)
      else Raise unexpected_kw
  | None => Ok (InputInvoiceStarGiftUpgrade stargift None)
  end.

Definition new_GetStarsStatusRequest (L : layer) (p : option peer)
  : result request :=
  match p with
  | Some _ =>
      if status_has_peer L then Ok (GetStarsStatusRequest p)
      else Raise unexpected_kw
  | None => Ok (GetStarsStatusRequest None)
  end.

(** [payform.form_id] *)
Definition form_id_of (r : response) : result Z :=
  match r with
  | PaymentForm f => Ok f
  | _ => Raise (OtherError "object has no attribute 'form_id'")
  end.

(** [getattr(res, "gifts", []) or []] *)
Definition gifts_of (r : response) : list saved_gift :=
  match r with
  | SavedStarGifts (Some gs) _ => gs
  | _ => []
  end.

(** [getattr(res, "next_offset", None)] *)
Definition next_offset_of (r : response) : option string :=
  match r with
  | SavedStarGifts _ o => o
  | _ => None
  end.

(** [getattr(st, "balance", 0)] *)
Definition balance_of (r : response) : pyval :=
  match r with
  | StarsStatus (Some b) => b
  | _ => PyInt 0
  end.

End TL.
Export TL.

(** ** Configuration, audit events, messages *)

Record config : Type := {
  PEERS : list string;
  DRY_RUN : bool;
  REPORT_PEER : string;
  PAGE_LIMIT : Z;
  KEEP_ORIGINAL_DETAILS : bool;
  TL_LAYER : layer;
}.

(** [PAGE_LIMIT = max(1, min(100, int(...)))] *)
Definition clamp_page_limit (raw : Z) : Z := Z.max 1 (Z.min 100 raw).

(** The dictionaries handed to [append_audit], one constructor per
    ["ev"] value. *)
Inductive audit_event : Type :=
| Ev_consider (key peer_s : string) (need : Z) (prepaid can_up : bool)
| Ev_dry_upgrade_prepaid (key : string)
| Ev_upgrade_prepaid_ok (key : string)
| Ev_dry_upgrade_paid (key : string) (need : Z)
| Ev_upgrade_paid_ok (key : string) (need : Z)
| Ev_upgrade_paid_err (key : string) (err : string).

Definition ev_name (e : audit_event) : string :=
  match e with
  | Ev_consider _ _ _ _ _ => "consider"
  | Ev_dry_upgrade_prepaid _ => "dry_upgrade_prepaid"
  | Ev_upgrade_prepaid_ok _ => "upgrade_prepaid_ok"
  | Ev_dry_upgrade_paid _ _ => "dry_upgrade_paid"
  | Ev_upgrade_paid_ok _ _ => "upgrade_paid_ok"
  | Ev_upgrade_paid_err _ _ => "upgrade_paid_err"
  end.

Definition is_consider (e : audit_event) : bool :=
  match e with Ev_consider _ _ _ _ _ => true | _ => false end.

(** The events that record a (real or simulated) successful upgrade. *)
Definition is_success_event (e : audit_event) : bool :=
  match e with
  | Ev_dry_upgrade_prepaid _ | Ev_upgrade_prepaid_ok _
  | Ev_dry_upgrade_paid _ _ | Ev_upgrade_paid_ok _ _ => true
  | _ => false
  end.

(** The second component of the triple [try_upgrade_one] returns, one
    constructor per f-string of the source; [msg_text] renders it. *)
Inductive message : Type :=
| Skip_already_done (key : string)
| Skip_not_upgradable (key : string)
| Prepaid_dry
| Prepaid_ok
| No_balance (need have : Z)
| Paid_dry (need : Z)
| Paid_ok (need : Z)
| Paid_error (e : exn)
| Skip_uncertain (key : string).

Definition msg_text (m : message) : string :=
  match m with
  | Skip_already_done k => "skip: already_done (" +:+ k +:+ ")"
  | Skip_not_upgradable k => "skip: not_upgradable (" +:+ k +:+ ")"
  | Prepaid_dry => "prepaid-upgrade (dry)"
  | Prepaid_ok => "prepaid-upgrade OK"
  | No_balance n h =>
      "no-balance: need " +:+ pretty n +:+ ", have " +:+ pretty h
  | Paid_dry n => "paid-upgrade (dry) need=" +:+ pretty n
  | Paid_ok n => "paid-upgrade OK need=" +:+ pretty n
  | Paid_error e => "paid-upgrade ERROR: " +:+ exn_str e
  | Skip_uncertain k => "skip: uncertain (" +:+ k +:+ ")"
  end.

(** The Prometheus counters and gauges.  The machine keeps the list of
    [inc(n)] and [set(v)] calls. *)
Inductive metric : Type :=
| MET_CHECKS | MET_GIFTS_SCANNED | MET_GIFTS_UPGRADABLE | MET_UPGR_ATTEMPTS
| MET_UPGR_SUCCESS | MET_ERRORS | MET_FLOODWAIT | G_BALANCE | G_LAST_RUN_TS.

(** The fields of the report text sent at the end of a cycle. *)
Record summary : Type := {
  sum_peers : list string;
  sum_found : Z;
  sum_upgraded : Z;
  sum_spent : Z;
  sum_dry_run : bool;
  sum_time : Z;
}.

Inductive log_level : Type := INFO | WARNING | ERROR.

(** ** The machine: process state, files and the outside world *)

Module Machine.

(** [STATE] is the module-level dictionary, [STATE_DB] what the state file
    holds, [AUDIT_JSONL] the lines of the audit file (event and ["ts"]).
    [sent] lists the requests passed to [self.client], in order; it is the
    only ghost field.  [world] is whatever the environment needs to answer
    the next call. *)
Record machine (W : Type) : Type := Build_machine {
  STATE : gmap string Z;
  STATE_DB : gmap string Z;
  AUDIT_JSONL : list (audit_event * Z);
  sent : list request;
  counters : list (metric * Z);
  logger : list (log_level * string);
  slept : list Z;
  world : W;
}.
Arguments Build_machine {W}.
Arguments STATE {W}.
Arguments STATE_DB {W}.
Arguments AUDIT_JSONL {W}.
Arguments sent {W}.
Arguments counters {W}.
Arguments logger {W}.
Arguments slept {W}.
Arguments world {W}.

(** What the engine does not control: the RPC client, entity resolution,
    sending the report, the two file writes, and the clock.  A file write
    answers [Some m] when it raises [OSError(m)]; [send_message] answers
    [Some e] when it raises [e]. *)
Record env (W : Type) : Type := {
  client : request -> W -> result response * W;
  get_input_entity : pyval -> W -> result peer * W;
  send_message : string -> summary -> W -> option exn * W;
  audit_write : audit_event * Z -> W -> option string * W;
  state_write : gmap string Z -> W -> option string * W;
  now : W -> Z;
}.
Arguments client {W}.
Arguments get_input_entity {W}.
Arguments send_message {W}.
Arguments audit_write {W}.
Arguments state_write {W}.
Arguments now {W}.

Definition M (W A : Type) : Type := machine W -> result A * machine W.

Definition ret {W A} (a : A) : M W A := fun s => (Ok a, s).

Definition raise {W A} (e : exn) : M W A := fun s => (Raise e, s).

Definition bind {W A B} (c : M W A) (k : A -> M W B) : M W B :=
  fun s => match c s with
           | (Ok a, s') => k a s'
           | (Raise e, s') => (Raise e, s')
           end.

(** A pure computation that may raise. *)
Definition lift {W A} (r : result A) : M W A := fun s => (r, s).

(** [try: c  except <classes h accepts>: h e].  A handler answering [None]
    does not match, and the exception goes on. *)
Definition try_except {W A} (c : M W A) (h : exn -> option (M W A)) : M W A :=
  fun s => match c s with
           | (Ok a, s') => (Ok a, s')
           | (Raise e, s') =>
               match h e with
               | Some k => k s'
               | None => (Raise e, s')
               end
           end.

Definition set_world {W} (w : W) (s : machine W) : machine W :=
  Build_machine (STATE s) (STATE_DB s) (AUDIT_JSONL s) (sent s)
                (counters s) (logger s) (slept s) w.

Definition inc {W} (m : metric) (n : Z) : M W unit :=
  fun s => (Ok tt,
            Build_machine (STATE s) (STATE_DB s) (AUDIT_JSONL s) (sent s)
                          (counters s ++ [(m, n)]) (logger s) (slept s)
                          (world s)).

Definition log {W} (l : log_level) (text : string) : M W unit :=
  fun s => (Ok tt,
            Build_machine (STATE s) (STATE_DB s) (AUDIT_JSONL s) (sent s)
                          (counters s) (logger s ++ [(l, text)]) (slept s)
                          (world s)).

(** [await asyncio.sleep(n)] *)
Definition sleep {W} (n : Z) : M W unit :=
  fun s => (Ok tt,
            Build_machine (STATE s) (STATE_DB s) (AUDIT_JSONL s) (sent s)
                          (counters s) (logger s) (slept s ++ [n])
                          (world s)).

(** [G.set(v)] on a gauge. *)
Definition gauge_set {W} (m : metric) (v : Z) : M W unit := inc m v.

(** The value of a counter: the sum of its increments. *)
Definition counter_value (m : metric) (cs : list (metric * Z)) : Z :=
  fold_right
    (fun '(m', n) acc =>
       match m, m' with
       | MET_CHECKS, MET_CHECKS | MET_GIFTS_SCANNED, MET_GIFTS_SCANNED
       | MET_GIFTS_UPGRADABLE, MET_GIFTS_UPGRADABLE
       | MET_UPGR_ATTEMPTS, MET_UPGR_ATTEMPTS
       | MET_UPGR_SUCCESS, MET_UPGR_SUCCESS | MET_ERRORS, MET_ERRORS
       | MET_FLOODWAIT, MET_FLOODWAIT | G_BALANCE, G_BALANCE
       | G_LAST_RUN_TS, G_LAST_RUN_TS => n + acc
       | _, _ => acc
       end) 0 cs.

Section Ops.
Context {W : Type} (E : env W).

(** [await self.client(req)] *)
Definition call (req : request) : M W response :=
  fun s =>
    let '(r, w) := client E req (world s) in
    (r, Build_machine (STATE s) (STATE_DB s) (AUDIT_JSONL s)
                      (sent s ++ [req]) (counters s) (logger s) (slept s) w).

(** [state_key(peer_id, gift_key)] *)
Definition state_key (peer_id gift_key : string) : string :=
  peer_id +:+ ":" +:+ gift_key.

(** [already_upgraded(peer_id, gift_key)] *)
Definition already_upgraded (peer_id gift_key : string) : M W bool :=
  fun s => (Ok (match STATE s !! state_key peer_id gift_key with
                | Some _ => true
                | None => false
                end), s).

(** [save_state(d)]: the temporary file is written and renamed over the
    state file; when either step raises the state file keeps its
    content. *)
Definition save_state (d : gmap string Z) : M W unit :=
  fun s =>
    match state_write E d (world s) with
    | (None, w) =>
        (Ok tt, Build_machine (STATE s) d (AUDIT_JSONL s) (sent s)
                              (counters s) (logger s) (slept s) w)
    | (Some m, w) => (Raise (OSError m), set_world w s)
    end.

(** [mark_upgraded(peer_id, gift_key)] *)
Definition mark_upgraded (peer_id gift_key : string) : M W unit :=
  fun s =>
    let d := <[state_key peer_id gift_key := now E (world s)]> (STATE s) in
    save_state d
      (Build_machine d (STATE_DB s) (AUDIT_JSONL s) (sent s)
                     (counters s) (logger s) (slept s) (world s)).

(** [append_audit(event)]: no handler around the write. *)
Definition append_audit (ev : audit_event) : M W unit :=
  fun s =>
    let line := (ev, now E (world s)) in
    match audit_write E line (world s) with
    | (None, w) =>
        (Ok tt, Build_machine (STATE s) (STATE_DB s) (AUDIT_JSONL s ++ [line])
                              (sent s) (counters s) (logger s) (slept s) w)
    | (Some m, w) => (Raise (OSError m), set_world w s)
    end.

End Ops.

End Machine.
Export Machine.

Notation "x <- c ;; k" := (bind c (fun x => k))
  (at level 20, c at level 99, k at level 200, only parsing).
Notation "' p <- c ;; k" := (bind c (fun x => match x with p => k end))
  (at level 20, p pattern, c at level 99, k at level 200, only parsing).
Notation "c ;;; k" := (bind c (fun _ => k))
  (at level 100, k at level 200, right associativity, only parsing).

(** ** The Upgrader *)

Module Upgrader.

(** Running totals of one cycle; [balance] is the local variable the
    cycle decrements. *)
Record totals : Type := Build_totals {
  balance : Z;
  total_found : Z;
  total_upgraded : Z;
  total_spent : Z;
}.

Section Engine.
Context {W : Type}.
Variable E : env W.
Variable B : builtins.
Variable C : config.

(** [_gift_need_and_flags(saved)]: the cost is read at the item level and
    then, when there is an inner descriptor, from it (with the item-level
    cost as the default of that [getattr]). *)
Definition _gift_need_and_flags (saved : saved_gift)
  : result (Z * bool * bool) :=
  match as_int_stars B (default (PyInt 0) (upgrade_stars saved)) with
  | Raise e => Raise e
  | Ok need0 =>
      match
        match gift saved with
        | Some sg =>
            as_int_stars B (default (PyInt need0) (sg_upgrade_stars sg))
        | None => Ok need0
        end
      with
      | Raise e => Raise e
      | Ok need =>
          let prepaid := truthy (default PyNone (prepaid_upgrade_hash saved)) in
          let can_up := truthy (default (PyBool false) (can_upgrade saved)) in
          Ok (need, prepaid, can_up)
      end
  end.

(** [if x:] on an optional integer attribute. *)
Definition id_present (x : option Z) : option Z :=
  match x with
  | Some z => if z =? 0 then None else Some z
  | None => None
  end.

(** [_gift_keys(saved, peer)] *)
Definition _gift_keys (saved : saved_gift) (p : peer)
  : result (string * input_saved_gift * string) :=
  match id_present (saved_id saved) with
  | Some sid =>
      Ok ("chat_saved:" +:+ pretty sid, InputSavedStarGiftChat p sid,
          "chat_saved")
  | None =>
      match id_present (msg_id saved) with
      | Some mid =>
          Ok ("user_msg:" +:+ pretty mid, InputSavedStarGiftUser mid,
              "user_msg")
      | None =>
          Raise (RuntimeError "Не удалось собрать InputSavedStarGift (нет msg_id/saved_id)")
      end
  end.

(** [_upgrade_prepaid(inp, keep_original)] *)
Definition _upgrade_prepaid (inp : input_saved_gift) (keep_original : bool)
  : M W unit :=
  try_except
    (req <- lift (new_UpgradeStarGiftRequest (TL_LAYER C) inp
                    (Some keep_original)) ;;
     call E req ;;;
     ret tt)
    (fun e =>
       if is_TypeError e then
         Some (req <- lift (new_UpgradeStarGiftRequest (TL_LAYER C) inp
                              None) ;;
               call E req ;;;
               ret tt)
       else None).

(** [_upgrade_paid(inp, need, keep_original)]: the first invoice is built
    before the [try]; the handler rebinds [invoice], and the rebound value
    is the one sent with the form. *)
Definition _upgrade_paid (inp : input_saved_gift) (need : Z)
  (keep_original : bool) : M W unit :=
  invoice <- lift (new_InputInvoiceStarGiftUpgrade (TL_LAYER C) inp
                     (Some keep_original)) ;;
  '(payform, invoice) <-
    try_except
      (payform <- call E (GetPaymentFormRequest invoice) ;;
       ret (payform, invoice))
      (fun e =>
         if is_TypeError e then
           Some (invoice <- lift (new_InputInvoiceStarGiftUpgrade
                                    (TL_LAYER C) inp None) ;;
                 payform <- call E (GetPaymentFormRequest invoice) ;;
                 ret (payform, invoice))
         else None) ;;
  form_id <- lift (form_id_of payform) ;;
  call E (SendStarsFormRequest form_id invoice) ;;;
  ret tt.

(** [try_upgrade_one(saved, peer, stars_balance)], returning
    [(ok, msg, spent)]. *)
Definition try_upgrade_one (saved : saved_gift) (p : peer)
  (stars_balance : Z) : M W (bool * message * Z) :=
  '(need, prepaid, can_up) <- lift (_gift_need_and_flags saved) ;;
  '(key, inp, key_type) <- lift (_gift_keys saved p) ;;
  append_audit E (Ev_consider key (peer_str p) need prepaid can_up) ;;;
  done <- already_upgraded (peer_str p) key ;;
  if done then ret (false, Skip_already_done key, 0)
  else if negb can_up && negb prepaid && (need <=? 0)
  then ret (false, Skip_not_upgradable key, 0)
  else
    inc MET_GIFTS_UPGRADABLE 1 ;;;
    (* 1) prepaid upgrade; [None] when control falls through *)
    returned <-
      (if prepaid then
         inc MET_UPGR_ATTEMPTS 1 ;;;
         if DRY_RUN C then
           log INFO ("[" +:+ key +:+ "] DRY_RUN prepaid upgradeStarGift") ;;;
           append_audit E (Ev_dry_upgrade_prepaid key) ;;;
           mark_upgraded E (peer_str p) key ;;;
           ret (Some (true, Prepaid_dry, 0))
         else
           try_except
             (_upgrade_prepaid inp (KEEP_ORIGINAL_DETAILS C) ;;;
              inc MET_UPGR_SUCCESS 1 ;;;
              append_audit E (Ev_upgrade_prepaid_ok key) ;;;
              mark_upgraded E (peer_str p) key ;;;
              ret (Some (true, Prepaid_ok, 0)))
             (fun e =>
                if is_RPCError e then
                  Some (log WARNING ("[" +:+ key +:+ "] prepaid failed: "
                                     +:+ exn_str e +:+ "; trying paid flow") ;;;
                        ret None)
                else None)
       else ret None) ;;
    match returned with
    | Some r => ret r
    | None =>
        (* 2) paid upgrade *)
        if 0 <? need then
          if stars_balance <? need
          then ret (false, No_balance need stars_balance, 0)
          else
            inc MET_UPGR_ATTEMPTS 1 ;;;
            if DRY_RUN C then
              log INFO ("[" +:+ key +:+ "] DRY_RUN paid upgrade need="
                        +:+ pretty need) ;;;
              append_audit E (Ev_dry_upgrade_paid key need) ;;;
              mark_upgraded E (peer_str p) key ;;;
              ret (true, Paid_dry need, 0)
            else
              try_except
                (_upgrade_paid inp need (KEEP_ORIGINAL_DETAILS C) ;;;
                 inc MET_UPGR_SUCCESS 1 ;;;
                 append_audit E (Ev_upgrade_paid_ok key need) ;;;
                 mark_upgraded E (peer_str p) key ;;;
                 ret (true, Paid_ok need, need))
                (fun e =>
                   if is_RPCError e then
                     Some (inc MET_ERRORS 1 ;;;
                           append_audit E
                             (Ev_upgrade_paid_err key (exn_str e)) ;;;
                           ret (false, Paid_error e, 0))
                   else None)
        else ret (false, Skip_uncertain key, 0)
    end.

(** [get_balance()].  An exception raised inside the [except TypeError]
    handler is not seen by the clauses after it. *)
Definition get_balance : M W Z :=
  got <-
    try_except
      (req <- lift (new_GetStarsStatusRequest (TL_LAYER C)
                      (Some InputPeerSelf)) ;;
       st <- call E req ;;
       ret (Some st))
      (fun e =>
         if is_TypeError e then
           Some (req <- lift (new_GetStarsStatusRequest (TL_LAYER C) None) ;;
                 st <- call E req ;;
                 ret (Some st))
         else if is_RPCError e then
           Some (log WARNING ("getStarsStatus RPC error: " +:+ exn_str e
                              +:+ "; balance=0") ;;;
                 gauge_set G_BALANCE 0 ;;;
                 ret None)
         else
           Some (log WARNING ("getStarsStatus unexpected: " +:+ exn_str e
                              +:+ "; balance=0") ;;;
                 gauge_set G_BALANCE 0 ;;;
                 ret None)) ;;
  match got with
  | None => ret 0
  | Some st =>
      let raw_bal := balance_of st in
      bal <- lift (as_int_stars B raw_bal) ;;
      (if (bal =? 0) &&
          negb (match raw_bal with
                | PyNone | PyInt 0 | PyBool false => true
                | PyFloat (S754_zero _) => true
                | _ => false
                end)
       then log INFO "Balance came as an unexpected value -> parsed 0"
       else ret tt) ;;;
      gauge_set G_BALANCE bal ;;;
      ret bal
  end.

(** [resolve_peer(p)] *)
Definition resolve_peer (p : string) : M W peer :=
  if String.eqb (str_lower B p) "me" then ret InputPeerSelf
  else
    let p' :=
      if String.prefix "-" p || str_isdigit B p then
        match int_of_str B p with
        | Ok z => PyInt z
        | Raise _ => PyStr p
        end
      else PyStr p in
    fun s =>
      let '(r, w) := get_input_entity E p' (world s) in (r, set_world w s).

(** [report(text)] *)
Definition report (text : summary) : M W unit :=
  fun s =>
    match send_message E (REPORT_PEER C) text (world s) with
    | (None, w) => (Ok tt, set_world w s)
    | (Some e, w) =>
        log WARNING ("Report failed: " +:+ exn_str e) (set_world w s)
    end.

(** [for g in gifts: yield g], with the consumer's loop body run at each
    [yield]. *)
Fixpoint for_each {A} (body : saved_gift -> A -> M W A)
  (gifts : list saved_gift) (acc : A) : M W A :=
  match gifts with
  | [] => ret acc
  | g :: rest => acc' <- body g acc ;; for_each body rest acc'
  end.

(** [if not offset: break] *)
Definition continues (offset : option string) : option string :=
  match offset with
  | Some o => if String.eqb o "" then None else Some o
  | None => None
  end.

(** The [while True] loop of [iter_saved_gifts], one page per iteration.
    The generator is embedded together with its consumer: [body] is what
    the [async for] does with each gift.  [fuel] bounds the number of
    pages; the answer is [None] when it runs out. *)
Fixpoint iter_pages {A} (fuel : nat) (p : peer) (limit : Z)
  (offset : string) (body : saved_gift -> A -> M W A) (acc : A)
  : M W (option A) :=
  match fuel with
  | O => ret None
  | S fuel' =>
      res <- call E (GetSavedStarGiftsRequest p offset limit true) ;;
      let gifts := gifts_of res in
      acc' <- for_each body gifts acc ;;
      inc MET_GIFTS_SCANNED (Z.of_nat (length gifts)) ;;;
      match continues (next_offset_of res) with
      | Some offset' => iter_pages fuel' p limit offset' body acc'
      | None => ret (Some acc')
      end
  end.

(** [iter_saved_gifts(peer, limit)]: the cursor starts empty. *)
Definition iter_saved_gifts {A} (fuel : nat) (p : peer) (limit : Z)
  (body : saved_gift -> A -> M W A) (acc : A) : M W (option A) :=
  iter_pages fuel p limit "" body acc.

(** [list(iter_saved_gifts(peer, limit))] *)
Definition collect_saved_gifts (fuel : nat) (p : peer) (limit : Z)
  : M W (option (list saved_gift)) :=
  iter_saved_gifts fuel p limit (fun g acc => ret (acc ++ [g])) [].

(** The body of the [async for] of [scan_and_upgrade_cycle]: one gift,
    inside the [try] with its three handlers. *)
Definition cycle_item (pname : string) (p : peer) (saved : saved_gift)
  (acc : bool * totals) : M W (bool * totals) :=
  let t := snd acc in
  let t := {| balance := balance t;
              total_found := total_found t + 1;
              total_upgraded := total_upgraded t;
              total_spent := total_spent t |} in
  try_except
    ('(ok, msg, spent) <- try_upgrade_one saved p (balance t) ;;
     let t' :=
       if ok : bool then
         {| balance := if 0 <? spent then Z.max 0 (balance t - spent)
                       else balance t;
            total_found := total_found t;
            total_upgraded := total_upgraded t + 1;
            total_spent := total_spent t + spent |}
       else t in
     log INFO ("[" +:+ pname +:+ "] " +:+ msg_text msg) ;;;
     ret (true, t'))
    (fun e =>
       Some
         match e with
         | FloodWaitError seconds =>
             inc MET_FLOODWAIT seconds ;;;
             log WARNING ("FLOOD_WAIT " +:+ pretty seconds +:+ "s on peer "
                          +:+ pname +:+ "; sleeping…") ;;;
             sleep (seconds + 1) ;;;
             ret (true, t)
         | RPCError _ =>
             inc MET_ERRORS 1 ;;;
             log ERROR ("[" +:+ pname +:+ "] RPC error: " +:+ exn_str e) ;;;
             ret (true, t)
         | _ =>
             inc MET_ERRORS 1 ;;;
             log ERROR ("[" +:+ pname +:+ "] Unexpected: " +:+ exn_str e) ;;;
             ret (true, t)
         end).

(** The [for p in PEERS] loop of [scan_and_upgrade_cycle]. *)
Fixpoint scan_peers (fuel : nat) (peers : list string) (t : totals)
  : M W (option totals) :=
  match peers with
  | [] => ret (Some t)
  | pname :: rest =>
      resolved <-
        try_except (p <- resolve_peer pname ;; ret (Some p))
          (fun e =>
             Some (inc MET_ERRORS 1 ;;;
                   log ERROR ("resolve peer '" +:+ pname +:+ "' failed: "
                              +:+ exn_str e) ;;;
                   ret None)) ;;
      match resolved with
      | None => scan_peers fuel rest t
      | Some p =>
          log INFO ("Scanning peer: " +:+ pname) ;;;
          scanned <- iter_saved_gifts fuel p (PAGE_LIMIT C)
                       (cycle_item pname p) (false, t) ;;
          match scanned with
          | None => ret None
          | Some (any_found, t') =>
              (if any_found then ret tt
               else log INFO ("No gifts found for peer " +:+ pname)) ;;;
              scan_peers fuel rest t'
          end
      end
  end.

(** [scan_and_upgrade_cycle()] *)
Definition scan_and_upgrade_cycle (fuel : nat) : M W (option unit) :=
  (fun s => gauge_set G_LAST_RUN_TS (now E (world s)) s) ;;;
  inc MET_CHECKS 1 ;;;
  bal <-
    try_except
      (b <- get_balance ;;
       log INFO ("Stars balance: " +:+ pretty b) ;;;
       ret b)
      (fun e =>
         if is_RPCError e then
           Some (inc MET_ERRORS 1 ;;;
                 log ERROR ("getStarsStatus failed: " +:+ exn_str e) ;;;
                 ret 0)
         else None) ;;
  done <- scan_peers fuel (PEERS C)
            {| balance := bal; total_found := 0; total_upgraded := 0;
               total_spent := 0 |} ;;
  match done with
  | None => ret None
  | Some t =>
      (fun s =>
         report {| sum_peers := PEERS C; sum_found := total_found t;
                   sum_upgraded := total_upgraded t;
                   sum_spent := total_spent t; sum_dry_run := DRY_RUN C;
                   sum_time := now E (world s) |} s) ;;;
      ret (Some tt)
  end.

End Engine.

End Upgrader.

(** ** A scripted environment

    A world whose client answers from a list of prepared replies, whose
    file writes fail or succeed as two prepared lists say, and whose
    clock is fixed; and a runtime that reads signed decimal integer
    literals only.  The concrete runs below are evaluated in it. *)

Module Scripted.

Import Upgrader.

Definition is_digit (c : ascii) : bool :=
  let n := Z.of_nat (nat_of_ascii c) in (48 <=? n) && (n <=? 57).

Fixpoint digits (s : string) (acc : Z) : option Z :=
  match s with
  | EmptyString => Some acc
  | String c s' =>
      if is_digit c
      then digits s' (10 * acc + (Z.of_nat (nat_of_ascii c) - 48))
      else None
  end.

Definition parse_int (s : string) : option Z :=
  match s with
  | EmptyString => None
  | String "-"%char EmptyString => None
  | String "-"%char s' => option_map Z.opp (digits s' 0)
  | _ => digits s 0
  end.

(** The float with the value of an integer (exact below [2^53]). *)
Definition float_of_Z (z : Z) : spec_float :=
  match z with
  | Z0 => S754_zero false
  | Zpos m => S754_finite false m 0
  | Zneg m => S754_finite true m 0
  end.

Definition lower_char (c : ascii) : ascii :=
  let n := nat_of_ascii c in
  if (65 <=? Z.of_nat n) && (Z.of_nat n <=? 90)
  then ascii_of_nat (n + 32) else c.

Fixpoint lower (s : string) : string :=
  match s with
  | EmptyString => EmptyString
  | String c s' => String (lower_char c) (lower s')
  end.

Fixpoint all_digits (s : string) : bool :=
  match s with
  | EmptyString => true
  | String c s' => is_digit c && all_digits s'
  end.

(** On a signed decimal integer literal [float], [int], [lower] and
    [isdigit] answer as Python does (exactly for [float] below [2^53]).
    Every other string is rejected by [float] and [int] here, although
    Python reads more of them; the runs below only use such literals. *)
Definition runtime : builtins := {|
  float_of_str s :=
    match parse_int s with
    | Some z => Ok (float_of_Z z)
    | None => Raise (ValueError "could not convert string to float")
    end;
  int_of_str s :=
    match parse_int s with
    | Some z => Ok z
    | None => Raise (ValueError "invalid literal for int() with base 10")
    end;
  str_lower := lower;
  str_isdigit s := negb (String.eqb s "") && all_digits s;
|}.

Record script : Type := {
  replies : list (result response);
  audit_script : list (option string);
  state_script : list (option string);
  time : Z;
}.

(** Each client call takes the next prepared reply; each file write
    takes the next prepared outcome, and succeeds when none is left. *)
Definition scripted : env script := {|
  client _ w :=
    match replies w with
    | r :: rest =>
        (r, {| replies := rest; audit_script := audit_script w;
               state_script := state_script w; time := time w |})
    | [] => (Raise (OtherError "no reply scripted"), w)
    end;
  get_input_entity v w :=
    (match v with
     | PyStr h => Ok (InputPeerEntity h)
     | PyInt z => Ok (InputPeerEntity (pretty z))
     | _ => Raise (ValueError "cannot find any entity")
     end, w);
  send_message _ _ w := (None, w);
  audit_write _ w :=
    match audit_script w with
    | o :: rest =>
        (o, {| replies := replies w; audit_script := rest;
               state_script := state_script w; time := time w |})
    | [] => (None, w)
    end;
  state_write _ w :=
    match state_script w with
    | o :: rest =>
        (o, {| replies := replies w; audit_script := audit_script w;
               state_script := rest; time := time w |})
    | [] => (None, w)
    end;
  now := time;
|}.

(** A fresh process: empty state, empty files. *)
Definition boot {W} (w : W) : machine W :=
  Build_machine ∅ ∅ [] [] [] [] [] w.

Definition healthy (rs : list (result response)) : script :=
  {| replies := rs; audit_script := []; state_script := [];
     time := 1700000000 |}.

(** A world whose audit file takes the lines as [outcomes] say. *)
Definition flaky_audit (rs : list (result response))
  (outcomes : list (option string)) : script :=
  {| replies := rs; audit_script := outcomes; state_script := [];
     time := 1700000000 |}.

Definition full_layer : layer :=
  {| upgrade_has_keep := true; invoice_has_keep := true;
     status_has_peer := true |}.

(** A layer whose invoice constructor has no [keep_original_details]. *)
Definition old_invoice_layer : layer :=
  {| upgrade_has_keep := true; invoice_has_keep := false;
     status_has_peer := true |}.

Definition live : config :=
  {| PEERS := ["me"]; DRY_RUN := false; REPORT_PEER := "me";
     PAGE_LIMIT := 100; KEEP_ORIGINAL_DETAILS := true;
     TL_LAYER := full_layer |}.

Definition dry : config :=
  {| PEERS := ["me"]; DRY_RUN := true; REPORT_PEER := "me";
     PAGE_LIMIT := 100; KEEP_ORIGINAL_DETAILS := true;
     TL_LAYER := full_layer |}.

(** A personal save with a cost, no prepaid token. *)
Definition paid_gift (mid cost : Z) : saved_gift :=
  {| upgrade_stars := Some (PyInt cost); gift := None;
     prepaid_upgrade_hash := None; can_upgrade := Some (PyBool true);
     msg_id := Some mid; saved_id := None |}.

(** A personal save with a prepaid token. *)
Definition prepaid_gift (mid : Z) : saved_gift :=
  {| upgrade_stars := None; gift := None;
     prepaid_upgrade_hash := Some (PyStr "a1b2c3");
     can_upgrade := Some (PyBool true);
     msg_id := Some mid; saved_id := None |}.

(** A save that carries both addressing schemes, and one with none. *)
Definition both_schemes_gift : saved_gift :=
  {| upgrade_stars := Some (PyInt 50); gift := None;
     prepaid_upgrade_hash := None; can_upgrade := Some (PyBool true);
     msg_id := Some 5; saved_id := Some 7 |}.

Definition no_scheme_gift : saved_gift :=
  {| upgrade_stars := Some (PyInt 50); gift := None;
     prepaid_upgrade_hash := None; can_upgrade := Some (PyBool true);
     msg_id := None; saved_id := None |}.

(** A personal save whose cost arrives as the string ["-5"]. *)
Definition negative_cost_gift : saved_gift :=
  {| upgrade_stars := Some (PyStr "-5"); gift := None;
     prepaid_upgrade_hash := None; can_upgrade := Some (PyBool true);
     msg_id := Some 5; saved_id := None |}.

Definition start_totals (bal : Z) : bool * totals :=
  (false, {| balance := bal; total_found := 0; total_upgraded := 0;
             total_spent := 0 |}).

(** A remote collection of [items] served in pages of at most [limit]
    items.  The cursor is opaque to the reader; this service encodes the
    index of the next item in the length of the cursor, so the empty
    cursor is the start.  It answers no cursor once the last item is
    out. *)
Fixpoint cursor (n : nat) : string :=
  match n with
  | O => EmptyString
  | S k => String "x"%char (cursor k)
  end.

Definition paged_service (items : list saved_gift) : env unit := {|
  client req w :=
    match req with
    | GetSavedStarGiftsRequest _ offset limit _ =>
        let i := String.length offset in
        let n := Z.to_nat limit in
        (Ok (SavedStarGifts
               (Some (take n (drop i items)))
               (if (i + n <? length items)%nat
                then Some (cursor (i + n)) else None)), w)
    | _ => (Raise (RPCError "METHOD_INVALID"), w)
    end;
  get_input_entity _ w := (Ok InputPeerSelf, w);
  send_message _ _ w := (None, w);
  audit_write _ w := (None, w);
  state_write _ w := (None, w);
  now _ := 1700000000;
|}.

(** A service that never stops handing out a cursor: every page is
    empty and points to a next one. *)
Definition endless_service : env unit := {|
  client req w :=
    match req with
    | GetSavedStarGiftsRequest _ _ _ _ =>
        (Ok (SavedStarGifts (Some []) (Some "next")), w)
    | _ => (Raise (RPCError "METHOD_INVALID"), w)
    end;
  get_input_entity _ w := (Ok InputPeerSelf, w);
  send_message _ _ w := (None, w);
  audit_write _ w := (None, w);
  state_write _ w := (None, w);
  now _ := 1700000000;
|}.

(** A StarsAmount-like object. *)
Definition stars_amount (amount nanos : Z) : pyval :=
  PyObj [("amount", PyInt amount); ("nanos", PyInt nanos)]
        (Some [("_", PyStr "StarsAmount"); ("amount", PyInt amount);
               ("nanos", PyInt nanos)])
        None.

(** A personal save with a prepaid token and a cost. *)
Definition prepaid_gift_costing (mid cost : Z) : saved_gift :=
  {| upgrade_stars := Some (PyInt cost); gift := None;
     prepaid_upgrade_hash := Some (PyStr "a1b2c3");
     can_upgrade := Some (PyBool true);
     msg_id := Some mid; saved_id := None |}.

(** A save whose inner descriptor carries [upgrade_stars = None]. *)
Definition inner_none_gift : saved_gift :=
  {| upgrade_stars := Some (PyInt 50);
     gift := Some {| sg_upgrade_stars := Some PyNone |};
     prepaid_upgrade_hash := None; can_upgrade := Some (PyBool true);
     msg_id := Some 5; saved_id := None |}.

(** The scripted world, with no entity known to the client. *)
Definition unknown_entities : env script := {|
  client := client scripted;
  get_input_entity _ w := (Raise (ValueError "Cannot find any entity"), w);
  send_message := send_message scripted;
  audit_write := audit_write scripted;
  state_write := state_write scripted;
  now := time;
|}.

(** A world whose state file takes the writes as [outcomes] say. *)
Definition flaky_state (rs : list (result response))
  (outcomes : list (option string)) : script :=
  {| replies := rs; audit_script := []; state_script := outcomes;
     time := 1700000000 |}.

(** A process that already holds, and has saved, one record. *)
Definition seeded {W} (k : string) (t : Z) (w : W) : machine W :=
  Build_machine {[ k := t ]} {[ k := t ]} [] [] [] [] [] w.

End Scripted.

(** ** Vocabulary of the properties *)

Import Upgrader.

(** The two requests of a payment. *)
Definition is_payment_request (r : request) : bool :=
  match r with
  | GetPaymentFormRequest _ | SendStarsFormRequest _ _ => true
  | _ => false
  end.

(** The audit event that belongs to an answer of [try_upgrade_one]:
    the four skips have none. *)
Definition terminal_event (key : string) (m : message)
  : option audit_event :=
  match m with
  | Prepaid_dry => Some (Ev_dry_upgrade_prepaid key)
  | Prepaid_ok => Some (Ev_upgrade_prepaid_ok key)
  | Paid_dry n => Some (Ev_dry_upgrade_paid key n)
  | Paid_ok n => Some (Ev_upgrade_paid_ok key n)
  | Paid_error e => Some (Ev_upgrade_paid_err key (exn_str e))
  | Skip_already_done _ | Skip_not_upgradable _ | No_balance _ _
  | Skip_uncertain _ => None
  end.

Definition is_skip (m : message) : bool :=
  match m with
  | Skip_already_done _ | Skip_not_upgradable _ | No_balance _ _
  | Skip_uncertain _ => true
  | _ => false
  end.

(** [total_found += 1], the only change of the totals when the item
    is not upgraded. *)
Definition found_one (t : totals) : totals :=
  {| balance := balance t;
     total_found := total_found t + 1;
     total_upgraded := total_upgraded t;
     total_spent := total_spent t |}.

(** The totals after an upgrade that spent [spent]. *)
Definition upgraded_one (spent : Z) (t : totals) : totals :=
  {| balance := if 0 <? spent then Z.max 0 (balance t - spent)
                else balance t;
     total_found := total_found t + 1;
     total_upgraded := total_upgraded t + 1;
     total_spent := total_spent t + spent |}.

(** The remote side of a paginated read, as the reader sees it: from
    world [w] and cursor [offset] the service answers the pages listed,
    each with the cursor it was asked for, every answer but the last
    carrying a non-empty continuation cursor, and the last carrying
    none. *)
Inductive served {W} (E : env W) (p : peer) (limit : Z)
  : W -> string -> list (string * list saved_gift) -> W -> Prop :=
| served_last w offset res w' :
    client E (GetSavedStarGiftsRequest p offset limit true) w
      = (Ok res, w') ->
    continues (next_offset_of res) = None ->
    served E p limit w offset [(offset, gifts_of res)] w'
| served_next w offset res w' offset' pages w'' :
    client E (GetSavedStarGiftsRequest p offset limit true) w
      = (Ok res, w') ->
    continues (next_offset_of res) = Some offset' ->
    served E p limit w' offset' pages w'' ->
    served E p limit w offset ((offset, gifts_of res) :: pages) w''.

(** ** The state file at start-up, and the main loop *)

(** What [load_state] can find: no file, a file [json.loads] rejects, or
    a file holding the object [save_state] writes. *)
Inductive state_file : Type :=
| NoFile
| Unreadable
| Json (d : gmap string Z).

(** [load_state()] *)
Definition load_state (f : state_file) : gmap string Z :=
  match f with
  | Json d => d
  | Unreadable => ∅
  | NoFile => ∅
  end.

(** A process starting: [STATE = load_state()], nothing sent, counted or
    logged yet; the audit file keeps the lines it has. *)
Definition process_start {W} (f : state_file)
  (audit : list (audit_event * Z)) (w : W) : machine W :=
  Build_machine (load_state f) (load_state f) audit [] [] [] [] w.

(** The process starting again on the files machine [s] left. *)
Definition restart {W} (s : machine W) : machine W :=
  process_start (Json (STATE_DB s)) (AUDIT_JSONL s) (world s).

Section MainLoop.
Context {W : Type}.
Variable E : env W.
Variable B : builtins.
Variable C : config.

(** The [try] statement in the [while] loop of [main]: one cycle and its
    two handlers.  The lock around the cycle is free whenever this loop
    reaches it and no reactive scan runs, and is left out, as is the
    delay that follows the statement. *)
Definition main_try_cycle (fuel : nat) : M W (option unit) :=
  try_except
    (scan_and_upgrade_cycle E B C fuel)
    (fun e =>
       Some
         match e with
         | FloodWaitError seconds =>
             inc MET_FLOODWAIT seconds ;;;
             log WARNING ("CYCLE FLOOD_WAIT " +:+ pretty seconds
                          +:+ "s; sleeping…") ;;;
             sleep (seconds + 1) ;;;
             ret (Some tt)
         | _ =>
             inc MET_ERRORS 1 ;;;
             log ERROR ("CYCLE error: " +:+ exn_str e) ;;;
             ret (Some tt)
         end).

End MainLoop.

(** ** Relations between the machine before and after *)

(** [c] relates every machine it starts from to the one it leaves. *)
Definition keeps {W A} (R : machine W -> machine W -> Prop) (c : M W A)
  : Prop :=
  forall s, R s (snd (c s)).

(** Nothing is taken back: every dedup record stays with its timestamp,
    the audit file, the requests, the metric calls, the log and the
    sleeps only get longer; and when the state file held only records
    the process knew, it still does, and has lost none. *)
Definition evolves {W} (s s' : machine W) : Prop :=
  STATE s ⊆ STATE s' /\
  AUDIT_JSONL s `prefix_of` AUDIT_JSONL s' /\
  sent s `prefix_of` sent s' /\
  counters s `prefix_of` counters s' /\
  logger s `prefix_of` logger s' /\
  slept s `prefix_of` slept s' /\
  (STATE_DB s ⊆ STATE s ->
   STATE_DB s' ⊆ STATE s' /\ STATE_DB s ⊆ STATE_DB s').


Definition is_send_form (r : request) : bool :=
  match r with SendStarsFormRequest _ _ => true | _ => false end.

Definition is_upgrade_request (r : request) : bool :=
  match r with UpgradeStarGiftRequest _ _ => true | _ => false end.

(** What the loop over the fields of an amount object gets from one
    field: its integer when it is there, not [None], and converts. *)
Definition field_int (B : builtins) (fields : list (string * pyval))
  (name : string) : option Z :=
  match assoc name fields with
  | Some v =>
      if is_None v then None
      else match py_int B v with
           | Ok z => Some z
           | Raise _ => None
           end
  | None => None
  end.

(** The totals [t'] reached from the totals [t]: balance and total
    spent add up as before, the total spent has not gone down, and no
    more gifts were upgraded than were found. *)
Definition accounted (t t' : totals) : Prop :=
  balance t' + total_spent t' = balance t + total_spent t /\
  total_spent t <= total_spent t' /\
  total_found t <= total_found t' /\
  0 <= total_upgraded t' - total_upgraded t
    <= total_found t' - total_found t.

(** * Properties *)

(** ** Symbolic execution of the monadic code *)

(** Case analysis on the innermost scrutinee of the first [match] or
    [if] found in hypothesis [H]. *)
Ltac run_step H :=
  match type of H with
  | context [match ?x with _ => _ end] =>
      lazymatch x with
      | context [match _ with _ => _ end] => fail
      | _ => destruct x eqn:?
      end
  | context [if ?x then _ else _] =>
      lazymatch x with
      | context [match _ with _ => _ end] => fail
      | context [if _ then _ else _] => fail
      | _ => destruct x eqn:?
      end
  end.

Ltac run_all H := cbn in H; repeat (run_step H; cbn in H).

Ltac unfold_monad H :=
  unfold bind, try_except, lift, ret, raise, inc, gauge_set, log, sleep,
    append_audit, mark_upgraded, save_state, already_upgraded, call,
    set_world in H.

Ltac unfold_engine H :=
  unfold try_upgrade_one, _upgrade_prepaid, _upgrade_paid in H;
  unfold_monad H.

(** Closes [l ++ new = l ++ ?suffix] for the lines a run appended. *)
Ltac give_suffix :=
  first [ symmetry; apply app_nil_r
        | rewrite <- ?app_assoc; reflexivity ].

(** ** Page limit *)

Lemma clamp_page_limit_range raw :
  1 <= clamp_page_limit raw <= 100.
Proof. unfold clamp_page_limit. lia. Qed.

(** ** Amount normalisation *)

Section AsIntStars.
Variable B : builtins.

(** [None], booleans, integers and finite floats. *)
Lemma as_int_stars_None : as_int_stars B PyNone = Ok 0.
Proof. reflexivity. Qed.

Lemma as_int_stars_int z : as_int_stars B (PyInt z) = Ok z.
Proof. reflexivity. Qed.



Lemma as_int_stars_str_unparsable s e :
  float_of_str B s = Raise e -> as_int_stars B (PyStr s) = Ok 0.
Proof. intros H. cbn. now rewrite H. Qed.


Lemma as_int_stars_obj_unrecognised :
  as_int_stars B (PyObj [] None None) = Ok 0.
Proof. reflexivity. Qed.


(** C6 (the code departs from the claim): the numeric branch
    [return int(x)] has no handler, so a plain float that is
    not-a-number makes [as_int_stars] raise [ValueError] instead of
    answering zero; an infinite one raises [OverflowError]. *)
Theorem C6_as_int_stars_raises_on_nan :
  as_int_stars B (PyFloat S754_nan)
    = Raise (ValueError "cannot convert float NaN to integer")
  /\ (forall sg, as_int_stars B (PyFloat (S754_infinity sg))
        = Raise (OverflowError "cannot convert float infinity to integer")).
Proof. split; reflexivity. Qed.

(** The string branch does guard the same conversion: a string that
    [float] reads as not-a-number is normalised to zero. *)
Lemma as_int_stars_str_nan s :
  float_of_str B s = Ok S754_nan -> as_int_stars B (PyStr s) = Ok 0.
Proof. intros H. cbn. now rewrite H. Qed.

End AsIntStars.

(** ** The executor and its signature fallback *)

Section Executor.
Context {W : Type}.
Variable E : env W.
Variable C : config.

(** Prepaid, layer without the flag: the constructor raises inside the
    [try], and the executor is exactly one call without the flag. *)
Lemma upgrade_prepaid_retry_on_constructor inp keep s :
  upgrade_has_keep (TL_LAYER C) = false ->
  _upgrade_prepaid E C inp keep s
    = (call E (UpgradeStarGiftRequest inp None) ;;; ret tt) s.
Proof.
  intros HL. unfold _upgrade_prepaid, try_except, bind, lift,
    new_UpgradeStarGiftRequest.
  rewrite HL. cbn. reflexivity.
Qed.

(** Prepaid, the call itself raises [TypeError]: one more call, without
    the flag, whose outcome is the outcome of the executor. *)
Lemma upgrade_prepaid_retry_on_call inp keep s m :
  upgrade_has_keep (TL_LAYER C) = true ->
  fst (call E (UpgradeStarGiftRequest inp (Some keep)) s)
    = Raise (TypeError m) ->
  _upgrade_prepaid E C inp keep s
    = (call E (UpgradeStarGiftRequest inp None) ;;; ret tt)
        (snd (call E (UpgradeStarGiftRequest inp (Some keep)) s)).
Proof.
  intros HL Hc. unfold _upgrade_prepaid, try_except, bind, lift,
    new_UpgradeStarGiftRequest.
  rewrite HL.
  destruct (call E (UpgradeStarGiftRequest inp (Some keep)) s)
    as [[a | e] s1]; cbn in *; [discriminate |].
  injection Hc as ->. reflexivity.
Qed.

(** Prepaid, any other outcome of the first call is the outcome of the
    executor: one request, no retry. *)
Lemma upgrade_prepaid_no_retry inp keep s :
  upgrade_has_keep (TL_LAYER C) = true ->
  (forall m, fst (call E (UpgradeStarGiftRequest inp (Some keep)) s)
             <> Raise (TypeError m)) ->
  _upgrade_prepaid E C inp keep s
    = (call E (UpgradeStarGiftRequest inp (Some keep)) ;;; ret tt) s.
Proof.
  intros HL Hc. unfold _upgrade_prepaid, try_except, bind, lift,
    new_UpgradeStarGiftRequest.
  rewrite HL.
  destruct (call E (UpgradeStarGiftRequest inp (Some keep)) s)
    as [[a | e] s1]; cbn in *; [reflexivity |].
  destruct e; cbn; try reflexivity. now destruct (Hc msg).
Qed.

(** Paid, the payment-form call raises [TypeError]: the invoice is
    rebuilt without the flag, the form is requested once more, and the
    rebuilt invoice is the one submitted. *)
Lemma upgrade_paid_retry_on_call inp need keep s m :
  invoice_has_keep (TL_LAYER C) = true ->
  fst (call E (GetPaymentFormRequest
                 (InputInvoiceStarGiftUpgrade inp (Some keep))) s)
    = Raise (TypeError m) ->
  _upgrade_paid E C inp need keep s
    = (payform <- call E (GetPaymentFormRequest
                            (InputInvoiceStarGiftUpgrade inp None)) ;;
       form_id <- lift (form_id_of payform) ;;
       call E (SendStarsFormRequest form_id
                 (InputInvoiceStarGiftUpgrade inp None)) ;;;
       ret tt)
        (snd (call E (GetPaymentFormRequest
                        (InputInvoiceStarGiftUpgrade inp (Some keep))) s)).
Proof.
  intros HL Hc. unfold _upgrade_paid, try_except, bind, lift,
    new_InputInvoiceStarGiftUpgrade.
  rewrite HL.
  destruct (call E (GetPaymentFormRequest _) s) as [[a | e] s1];
    cbn in *; [discriminate |].
  injection Hc as ->. cbn.
  destruct (call E (GetPaymentFormRequest _) s1) as [[a | e] s2];
    reflexivity.
Qed.

(** Paid, any other outcome of the payment-form call: no retry. *)
Lemma upgrade_paid_no_retry inp need keep s :
  invoice_has_keep (TL_LAYER C) = true ->
  (forall m, fst (call E (GetPaymentFormRequest
                            (InputInvoiceStarGiftUpgrade inp (Some keep))) s)
             <> Raise (TypeError m)) ->
  _upgrade_paid E C inp need keep s
    = (payform <- call E (GetPaymentFormRequest
                            (InputInvoiceStarGiftUpgrade inp (Some keep))) ;;
       form_id <- lift (form_id_of payform) ;;
       call E (SendStarsFormRequest form_id
                 (InputInvoiceStarGiftUpgrade inp (Some keep))) ;;;
       ret tt) s.
Proof.
  intros HL Hc. unfold _upgrade_paid, try_except, bind, lift,
    new_InputInvoiceStarGiftUpgrade.
  rewrite HL.
  destruct (call E (GetPaymentFormRequest _) s) as [[a | e] s1];
    cbn in *; [reflexivity |].
  destruct e; cbn; try reflexivity. now destruct (Hc msg).
Qed.

(** C7 (the code departs from the claim): in the paid executor the
    invoice carrying the detail-preservation flag is built before the
    [try].  On a layer whose invoice constructor does not know the flag
    the [TypeError] of that constructor leaves [_upgrade_paid] at once:
    nothing is sent, and there is no retry without the flag. *)
Theorem C7_upgrade_paid_flag_rejection_not_retried inp need keep s :
  invoice_has_keep (TL_LAYER C) = false ->
  _upgrade_paid E C inp need keep s = (Raise unexpected_kw, s).
Proof.
  intros HL. unfold _upgrade_paid, bind, lift,
    new_InputInvoiceStarGiftUpgrade.
  now rewrite HL.
Qed.

End Executor.

Lemma C7_upgrade_paid_flag_rejection_not_retried_witness :
  invoice_has_keep Scripted.old_invoice_layer = false /\
  let C := {| PEERS := ["me"]; DRY_RUN := false; REPORT_PEER := "me";
              PAGE_LIMIT := 100; KEEP_ORIGINAL_DETAILS := true;
              TL_LAYER := Scripted.old_invoice_layer |} in
  let s := Scripted.boot
             (Scripted.healthy [Ok (PaymentForm 9); Ok Updates]) in
  _upgrade_paid Scripted.scripted C (InputSavedStarGiftUser 5) 50 true s
    = (Raise unexpected_kw, s).
Proof.
  split; [reflexivity |].
  intros C s.
  apply (C7_upgrade_paid_flag_rejection_not_retried Scripted.scripted C);
    reflexivity.
Defined.

(** ** The decision engine: dedup records *)

Section Dedup.
Context {W : Type}.
Variable E : env W.
Variable B : builtins.
Variable C : config.

(** What one run of the engine does to the dedup store, on every path:
    either nothing, and then no success event was appended and the run
    did not answer [ok]; or it inserted the record of this gift right
    after appending a success event, and then either the state file was
    rewritten and the run answered [ok], or rewriting the state file
    raised. *)
Lemma try_upgrade_one_dedup saved p bal s :
  let run := try_upgrade_one E B C saved p bal s in
  exists evs,
    AUDIT_JSONL (snd run) = AUDIT_JSONL s ++ evs /\
    ((existsb is_success_event (map fst evs) = false /\
      STATE (snd run) = STATE s /\
      STATE_DB (snd run) = STATE_DB s /\
      forall m sp, fst run <> Ok (true, m, sp))
     \/
     (existsb is_success_event (map fst evs) = true /\
      exists key inp kt t,
        _gift_keys saved p = Ok (key, inp, kt) /\
        STATE s !! state_key (peer_str p) key = None /\
        STATE (snd run) = <[state_key (peer_str p) key := t]> (STATE s) /\
        ((STATE_DB (snd run) = STATE (snd run) /\
          exists m sp, fst run = Ok (true, m, sp))
         \/
         (STATE_DB (snd run) = STATE_DB s /\
          exists msg, fst run = Raise (OSError msg) /\
          forall ok m sp, fst run <> Ok (ok, m, sp))))).
Proof.
  cbv zeta.
  destruct (try_upgrade_one E B C saved p bal s) as [r s'] eqn:H.
  cbn [fst snd].
  unfold_engine H. run_all H.
  all: inversion H; subst; clear H; cbn.
  all: eexists; split; [give_suffix |].
  all: cbn.
  all: try (left; repeat split; first [reflexivity | congruence]).
  all: right; split; [reflexivity |].
  all: do 4 eexists; split; [reflexivity |].
  all: split; [assumption |]; split; [reflexivity |].
  all: first [ left; split; [reflexivity | eauto]
             | right; split; [reflexivity |];
               eexists; split; [reflexivity | congruence] ].
Qed.

(** With the record in the store the run ends at the dedup check: it
    writes the [consider] line and answers [skip: already_done], or the
    write of that line raises; either way nothing is sent and the store
    is not touched. *)
Lemma try_upgrade_one_already_done saved p bal s need prepaid can_up
  key inp kt :
  _gift_need_and_flags B saved = Ok (need, prepaid, can_up) ->
  _gift_keys saved p = Ok (key, inp, kt) ->
  is_Some (STATE s !! state_key (peer_str p) key) ->
  let run := try_upgrade_one E B C saved p bal s in
  let line := (Ev_consider key (peer_str p) need prepaid can_up,
               now E (world s)) in
  sent (snd run) = sent s /\
  STATE (snd run) = STATE s /\
  STATE_DB (snd run) = STATE_DB s /\
  match fst (audit_write E line (world s)) with
  | None => fst run = Ok (false, Skip_already_done key, 0) /\
            AUDIT_JSONL (snd run) = AUDIT_JSONL s ++ [line]
  | Some msg => fst run = Raise (OSError msg) /\
                AUDIT_JSONL (snd run) = AUDIT_JSONL s
  end.
Proof.
  intros Hn Hk [t Ht]. cbv zeta.
  unfold try_upgrade_one, bind, lift, append_audit, already_upgraded.
  rewrite Hn, Hk. cbn.
  destruct (audit_write E _ (world s)) as [[msg |] w]; cbn.
  - repeat split; reflexivity.
  - rewrite Ht. cbn. repeat split; reflexivity.
Qed.

(** A run that answers [ok] had readable cost and flags. *)
Lemma try_upgrade_one_Ok_flags saved p bal s r :
  fst (try_upgrade_one E B C saved p bal s) = Ok r ->
  exists need prepaid can_up,
    _gift_need_and_flags B saved = Ok (need, prepaid, can_up).
Proof.
  unfold try_upgrade_one, bind, lift.
  destruct (_gift_need_and_flags B saved) as [[[need prepaid] can_up] | e];
    cbn; [eauto | discriminate].
Qed.


End Dedup.


(** ** The decision engine: audit events, dry run, non-positive cost *)

Section Decisions.
Context {W : Type}.
Variable E : env W.
Variable B : builtins.
Variable C : config.

(** C3 (as amended): a run of the engine that answers appends first
    exactly one [consider] line; after it the four skip answers
    (already done, not upgradable, no balance, uncertain) append nothing,
    and a dry run, a success and a paid failure append exactly one line,
    the event of that answer.  A rejected prepaid attempt that falls
    through to the paid path appends no line of its own.  No run appends
    more than two lines. *)
Theorem C3_audit_events_per_answer saved p bal s :
  let run := try_upgrade_one E B C saved p bal s in
  exists evs,
    AUDIT_JSONL (snd run) = AUDIT_JSONL s ++ evs /\
    (length evs <= 2)%nat /\
    match fst run with
    | Ok (ok, m, sp) =>
        exists need prepaid can_up key inp kt,
          _gift_need_and_flags B saved = Ok (need, prepaid, can_up) /\
          _gift_keys saved p = Ok (key, inp, kt) /\
          map fst evs
            = Ev_consider key (peer_str p) need prepaid can_up
              :: option_list (terminal_event key m) /\
          ok = negb (is_skip m || match m with Paid_error _ => true
                                  | _ => false end)
    | Raise _ => True
    end.
Proof.
  cbv zeta.
  destruct (try_upgrade_one E B C saved p bal s) as [r s'] eqn:H.
  cbn [fst snd].
  unfold_engine H. run_all H.
  all: inversion H; subst; clear H; cbn.
  all: eexists; split; [give_suffix |].
  all: split; [cbn; lia |].
  all: try exact I.
  all: do 6 eexists; repeat split; reflexivity.
Qed.

(** Under dry run the engine sends nothing at all. *)
Lemma dry_run_sends_nothing saved p bal s :
  DRY_RUN C = true ->
  sent (snd (try_upgrade_one E B C saved p bal s)) = sent s.
Proof.
  intros Hdry.
  destruct (try_upgrade_one E B C saved p bal s) as [r s'] eqn:H.
  cbn [fst snd].
  unfold try_upgrade_one in H. rewrite Hdry in H.
  unfold_monad H. run_all H.
  all: inversion H; subst; clear H; reflexivity.
Qed.

(** The classification does not depend on the flag: a dry run that
    answers [ok = False] is, state included, the run the live
    configuration makes. *)
Lemma dry_run_same_classification saved p bal s C' m sp :
  DRY_RUN C = true ->
  DRY_RUN C' = false ->
  fst (try_upgrade_one E B C saved p bal s) = Ok (false, m, sp) ->
  try_upgrade_one E B C' saved p bal s = try_upgrade_one E B C saved p bal s.
Proof.
  intros Hdry Hlive.
  unfold try_upgrade_one. rewrite Hdry, Hlive.
  intros H. unfold_monad H.
  unfold bind, try_except, lift, ret, raise, inc, gauge_set, log, sleep,
    append_audit, mark_upgraded, save_state, already_upgraded, call,
    set_world.
  run_all H; cbn; try discriminate; try reflexivity.
  all: repeat match goal with
         | Hx : ?a = _ |- context [?a] => rewrite Hx; cbn
         end; try reflexivity; try discriminate.
Qed.

(** C4: with the dry-run flag set, for every gift, the engine sends no
    request at all, so none of the three mutating ones; it classifies as
    the live configuration does (a run that refuses the item is the
    same run, state included); and an item that is not yet done and is
    eligible (a prepaid token, or no token and a positive cost the
    balance covers) ends in the simulated success of its path, with its
    two audit lines written and its dedup record inserted and
    persisted, the three file writes of that path succeeding. *)
Theorem C4_dry_run_no_remote_effect saved p bal s :
  DRY_RUN C = true ->
  let run := try_upgrade_one E B C saved p bal s in
  sent (snd run) = sent s /\
  filter (fun r => is_mutating r = true) (sent (snd run))
    = filter (fun r => is_mutating r = true) (sent s) /\
  (forall C' m sp,
     DRY_RUN C' = false -> fst run = Ok (false, m, sp) ->
     try_upgrade_one E B C' saved p bal s = run) /\
  (forall need prepaid can_up key inp kt w1 w2 w3,
     _gift_need_and_flags B saved = Ok (need, prepaid, can_up) ->
     _gift_keys saved p = Ok (key, inp, kt) ->
     STATE s !! state_key (peer_str p) key = None ->
     prepaid = true \/ (0 < need /\ need <= bal) ->
     let consider := (Ev_consider key (peer_str p) need prepaid can_up,
                      now E (world s)) in
     let simulated := (if prepaid then Ev_dry_upgrade_prepaid key
                       else Ev_dry_upgrade_paid key need, now E w1) in
     let record := <[state_key (peer_str p) key := now E w2]> (STATE s) in
     audit_write E consider (world s) = (None, w1) ->
     audit_write E simulated w1 = (None, w2) ->
     state_write E record w2 = (None, w3) ->
     fst run = Ok (true, if prepaid then Prepaid_dry else Paid_dry need, 0) /\
     AUDIT_JSONL (snd run) = AUDIT_JSONL s ++ [consider; simulated] /\
     STATE (snd run) = record /\
     STATE_DB (snd run) = record).
Proof.
  intros Hdry run.
  pose proof (dry_run_sends_nothing saved p bal s Hdry) as Hsent.
  fold run in Hsent.
  split; [exact Hsent |]. split; [now rewrite Hsent |].
  split.
  { intros C' m sp Hlive Hr.
    exact (dry_run_same_classification saved p bal s C' m sp Hdry Hlive Hr). }
  intros need prepaid can_up key inp kt w1 w2 w3 Hn Hk Hfresh Helig
    consider simulated record Ha1 Ha2 Hsw.
  subst run consider simulated record.
  unfold try_upgrade_one. rewrite Hdry, Hn, Hk.
  unfold bind, try_except, lift, ret, inc, log, append_audit,
    mark_upgraded, save_state, already_upgraded. cbn.
  rewrite Ha1. cbn. rewrite Hfresh. cbn.
  destruct prepaid.
  - rewrite andb_false_r. cbn. rewrite Ha2. cbn. rewrite Hsw. cbn.
    rewrite <- app_assoc. repeat split; reflexivity.
  - destruct Helig as [Hp | [Hpos Hle]]; [discriminate |].
    assert (Hnle : (need <=? 0) = false) by lia.
    assert (Hlt : (0 <? need) = true) by lia.
    assert (Hbal : (bal <? need) = false) by lia.
    rewrite Hnle, andb_false_r. cbn. rewrite Hlt, Hbal. cbn.
    rewrite Ha2. cbn. rewrite Hsw. cbn.
    rewrite <- app_assoc. repeat split; reflexivity.
Qed.

(** C10: only a strictly positive normalised cost enters the paid path.
    Normalisation can answer a negative integer (from an integer, or
    from a string [float] reads as a negative number); with a cost that
    is zero or negative no payment request is ever sent, on any path; a
    gift that is not yet done, with such a cost and no prepaid token,
    ends in [skip: uncertain] when it carries the can-upgrade hint and
    in [skip: not_upgradable] when it does not, so the upgradability
    check treats a negative cost as it treats zero. *)
Theorem C10_non_positive_cost_never_pays saved p bal s
  need prepaid can_up :
  _gift_need_and_flags B saved = Ok (need, prepaid, can_up) ->
  need <= 0 ->
  let run := try_upgrade_one E B C saved p bal s in
  (exists reqs, sent (snd run) = sent s ++ reqs /\
                forallb (fun r => negb (is_payment_request r)) reqs = true) /\
  (forall key inp kt w1,
     _gift_keys saved p = Ok (key, inp, kt) ->
     STATE s !! state_key (peer_str p) key = None ->
     audit_write E (Ev_consider key (peer_str p) need prepaid can_up,
                    now E (world s)) (world s) = (None, w1) ->
     prepaid = false ->
     fst run = Ok (false, if can_up then Skip_uncertain key
                          else Skip_not_upgradable key, 0) /\
     sent (snd run) = sent s /\ STATE (snd run) = STATE s) /\
  as_int_stars B (PyInt (-5)) = Ok (-5) /\
  (forall str mant, float_of_str B str = Ok (S754_finite true mant 0) ->
     as_int_stars B (PyStr str) = Ok (Z.neg mant)).
Proof.
  intros Hn Hle run.
  assert (Hnle : (need <=? 0) = true) by lia.
  assert (Hlt : (0 <? need) = false) by lia.
  split; [| split; [| split]].
  - subst run.
    destruct (try_upgrade_one E B C saved p bal s) as [r s'] eqn:H.
    cbn [fst snd].
    unfold try_upgrade_one in H. rewrite Hn in H.
    unfold _upgrade_prepaid in H. unfold_monad H.
    cbn in H. rewrite ?Hnle, ?Hlt in H.
    run_all H.
    all: rewrite ?Hnle, ?Hlt in H; cbn in H.
    all: inversion H; subst; clear H; cbn.
    all: eexists; split; [give_suffix | reflexivity].
  - intros key inp kt w1 Hk Hfresh Ha1 ->. subst run.
    unfold try_upgrade_one. rewrite Hn, Hk.
    unfold bind, lift, ret, inc, append_audit, already_upgraded. cbn.
    rewrite Ha1. cbn. rewrite Hfresh. cbn. rewrite Hnle, Hlt.
    destruct can_up; cbn; repeat split; reflexivity.
  - reflexivity.
  - intros str mant Hf. cbn. rewrite Hf. reflexivity.
Qed.

End Decisions.

(** ** The cycle: running balance and absorbed failures *)

Section Cycle.
Context {W : Type}.
Variable E : env W.
Variable B : builtins.
Variable C : config.

Local Arguments try_upgrade_one : simpl never.

(** What a run reports as spent: nothing, unless it answers the paid
    success, and then the cost of the gift, which the balance covered. *)
Lemma try_upgrade_one_spent saved p bal s ok m sp :
  fst (try_upgrade_one E B C saved p bal s) = Ok (ok, m, sp) ->
  (sp = 0 /\ forall n, m <> Paid_ok n)
  \/ (ok = true /\ m = Paid_ok sp /\ 0 < sp /\ sp <= bal /\
      DRY_RUN C = false /\
      exists prepaid can_up,
        _gift_need_and_flags B saved = Ok (sp, prepaid, can_up)).
Proof.
  destruct (try_upgrade_one E B C saved p bal s) as [r s'] eqn:H.
  cbn [fst]. intros Hr. subst r.
  unfold_engine H. run_all H.
  all: inversion H; subst; clear H.
  all: try (left; split; [reflexivity | discriminate]).
  all: right; repeat split; try reflexivity; try lia; eauto.
Qed.

(** The loop body around a run that answered. *)
Lemma cycle_item_after_Ok pname p saved acc s ok m sp s1 :
  try_upgrade_one E B C saved p (balance (snd acc)) s
    = (Ok (ok, m, sp), s1) ->
  cycle_item E B C pname p saved acc s
    = (Ok (true, if ok then upgraded_one sp (snd acc)
                 else found_one (snd acc)),
       snd (log INFO ("[" +:+ pname +:+ "] " +:+ msg_text m) s1)).
Proof.
  intros H. unfold cycle_item, try_except, bind. cbn.
  rewrite H. cbn. destruct ok; reflexivity.
Qed.

(** The loop body around a run that raised: one of the three handlers
    takes the exception, whatever it is; the gift is counted as found and
    nothing else changes in the totals. *)
Lemma cycle_item_after_Raise pname p saved acc s e s1 :
  try_upgrade_one E B C saved p (balance (snd acc)) s = (Raise e, s1) ->
  let item := cycle_item E B C pname p saved acc s in
  fst item = Ok (true, found_one (snd acc)) /\
  STATE (snd item) = STATE s1 /\
  STATE_DB (snd item) = STATE_DB s1 /\
  AUDIT_JSONL (snd item) = AUDIT_JSONL s1 /\
  sent (snd item) = sent s1 /\
  counters (snd item)
    = counters s1 ++ [match e with
                      | FloodWaitError n => (MET_FLOODWAIT, n)
                      | _ => (MET_ERRORS, 1)
                      end] /\
  length (logger (snd item)) = S (length (logger s1)).
Proof.
  intros H. unfold cycle_item, try_except, bind. cbn.
  rewrite H.
  destruct e; cbn; rewrite ?length_app; cbn;
    repeat split; try reflexivity; lia.
Qed.

(** The loop body never raises. *)
Lemma cycle_item_total pname p saved acc s :
  exists t, fst (cycle_item E B C pname p saved acc s) = Ok (true, t).
Proof.
  destruct (try_upgrade_one E B C saved p (balance (snd acc)) s)
    as [[[[ok m] sp] | e] s1] eqn:H.
  - rewrite (cycle_item_after_Ok _ _ _ _ _ _ _ _ _ H). cbn. eauto.
  - destruct (cycle_item_after_Raise pname _ _ _ _ _ _ H) as [Hr _].
    eauto.
Qed.






(** The same for the line written after the request: when a live
    prepaid upgrade has been sent and accepted and the write of its
    success line raises, the run raises with it and the gift is not
    recorded. *)
Lemma audit_failure_after_prepaid_upgrade saved p bal s
  need can_up key inp kt w1 res w2 msg w3 :
  DRY_RUN C = false ->
  upgrade_has_keep (TL_LAYER C) = true ->
  _gift_need_and_flags B saved = Ok (need, true, can_up) ->
  _gift_keys saved p = Ok (key, inp, kt) ->
  STATE s !! state_key (peer_str p) key = None ->
  audit_write E (Ev_consider key (peer_str p) need true can_up,
                 now E (world s)) (world s) = (None, w1) ->
  client E (UpgradeStarGiftRequest inp (Some (KEEP_ORIGINAL_DETAILS C))) w1
    = (Ok res, w2) ->
  audit_write E (Ev_upgrade_prepaid_ok key, now E w2) w2 = (Some msg, w3) ->
  let run := try_upgrade_one E B C saved p bal s in
  fst run = Raise (OSError msg) /\
  sent (snd run)
    = sent s ++ [UpgradeStarGiftRequest inp
                   (Some (KEEP_ORIGINAL_DETAILS C))] /\
  STATE (snd run) = STATE s /\
  STATE_DB (snd run) = STATE_DB s.
Proof.
  intros Hlive HL Hn Hk Hfresh Ha1 Hc Ha2. cbv zeta.
  unfold try_upgrade_one, _upgrade_prepaid, new_UpgradeStarGiftRequest.
  rewrite Hlive, HL, Hn, Hk.
  unfold bind, try_except, lift, ret, inc, log, append_audit,
    mark_upgraded, save_state, already_upgraded, call. cbn.
  rewrite Ha1. cbn. rewrite Hfresh. cbn.
  rewrite andb_false_r. cbn. rewrite Hc. cbn. rewrite Ha2. cbn.
  repeat split; reflexivity.
Qed.

(** C8 (as amended): [append_audit] has no handler of its own, so a
    failed write raises [OSError] to its caller.  When the write of the
    [consider] line fails, the exception leaves [try_upgrade_one] as it
    is and the item is abandoned at that point, with nothing sent and
    nothing recorded.  Whatever exception leaves [try_upgrade_one], the
    handlers of the cycle catch it: the gift is counted as found, one
    error (or the flood wait) is counted, one line is logged, and the
    loop body answers normally, so the cycle goes on. *)
Theorem C8_audit_failure_leaves_item_to_cycle pname p saved acc s :
  let run := try_upgrade_one E B C saved p (balance (snd acc)) s in
  let item := cycle_item E B C pname p saved acc s in
  (forall ev msg w1,
     audit_write E (ev, now E (world s)) (world s) = (Some msg, w1) ->
     append_audit E ev s = (Raise (OSError msg), set_world w1 s)) /\
  (forall need prepaid can_up key inp kt msg w1,
     _gift_need_and_flags B saved = Ok (need, prepaid, can_up) ->
     _gift_keys saved p = Ok (key, inp, kt) ->
     audit_write E (Ev_consider key (peer_str p) need prepaid can_up,
                    now E (world s)) (world s) = (Some msg, w1) ->
     run = (Raise (OSError msg), set_world w1 s) /\
     fst item = Ok (true, found_one (snd acc)) /\
     STATE (snd item) = STATE s /\
     STATE_DB (snd item) = STATE_DB s /\
     AUDIT_JSONL (snd item) = AUDIT_JSONL s /\
     sent (snd item) = sent s /\
     counters (snd item) = counters s ++ [(MET_ERRORS, 1)] /\
     logger (snd item)
       = logger s ++ [(ERROR, "[" +:+ pname +:+ "] Unexpected: " +:+ msg)]) /\
  (forall e s1,
     run = (Raise e, s1) ->
     fst item = Ok (true, found_one (snd acc)) /\
     STATE (snd item) = STATE s1 /\
     STATE_DB (snd item) = STATE_DB s1 /\
     AUDIT_JSONL (snd item) = AUDIT_JSONL s1 /\
     sent (snd item) = sent s1 /\
     counters (snd item)
       = counters s1 ++ [match e with
                         | FloodWaitError n => (MET_FLOODWAIT, n)
                         | _ => (MET_ERRORS, 1)
                         end] /\
     length (logger (snd item)) = S (length (logger s1))).
Proof.
  intros run item.
  assert (Happ : forall ev msg w1,
             audit_write E (ev, now E (world s)) (world s) = (Some msg, w1) ->
             append_audit E ev s = (Raise (OSError msg), set_world w1 s)).
  { intros ev msg w1 Ha. unfold append_audit. now rewrite Ha. }
  split; [exact Happ |]. split.
  - intros need prepaid can_up key inp kt msg w1 Hn Hk Ha.
    assert (Hrun : run = (Raise (OSError msg), set_world w1 s)).
    { subst run. unfold try_upgrade_one. rewrite Hn, Hk.
      unfold bind at 1. unfold lift at 1. cbn iota beta.
      unfold bind at 1. unfold lift at 1. cbn iota beta.
      unfold bind at 1. now rewrite (Happ _ _ _ Ha). }
    split; [exact Hrun |].
    subst item run. unfold cycle_item, try_except, bind. cbn.
    rewrite Hrun. cbn. repeat split; reflexivity.
  - intros e s1 Hrun. subst run item.
    exact (cycle_item_after_Raise pname p saved acc s e s1 Hrun).
Qed.

(** C9 (as amended): key construction needs at least one addressing
    scheme, not exactly one.  A non-zero [saved_id] gives the slot-based
    key whether or not there is a [msg_id]; without it a non-zero
    [msg_id] gives the message-based key; with neither,
    [_gift_keys] raises for that item.  The run of the engine then
    raises before any effect, the generic handler of the cycle takes the
    exception, counts one error and the gift as found, and the loop
    proceeds with the next item. *)
Theorem C9_gift_keys_at_least_one_scheme pname p saved rest acc s :
  (is_Ok (_gift_keys saved p) = true
   <-> id_present (saved_id saved) <> None
       \/ id_present (msg_id saved) <> None) /\
  (forall sid, id_present (saved_id saved) = Some sid ->
     _gift_keys saved p
       = Ok ("chat_saved:" +:+ pretty sid, InputSavedStarGiftChat p sid,
             "chat_saved")) /\
  (forall mid, id_present (saved_id saved) = None ->
     id_present (msg_id saved) = Some mid ->
     _gift_keys saved p
       = Ok ("user_msg:" +:+ pretty mid, InputSavedStarGiftUser mid,
             "user_msg")) /\
  (forall need prepaid can_up,
     id_present (saved_id saved) = None ->
     id_present (msg_id saved) = None ->
     _gift_need_and_flags B saved = Ok (need, prepaid, can_up) ->
     let boom :=
       RuntimeError
         "Не удалось собрать InputSavedStarGift (нет msg_id/saved_id)" in
     _gift_keys saved p = Raise boom /\
     try_upgrade_one E B C saved p (balance (snd acc)) s = (Raise boom, s) /\
     exists s1,
       cycle_item E B C pname p saved acc s
         = (Ok (true, found_one (snd acc)), s1) /\
       STATE s1 = STATE s /\ STATE_DB s1 = STATE_DB s /\
       AUDIT_JSONL s1 = AUDIT_JSONL s /\ sent s1 = sent s /\
       counters s1 = counters s ++ [(MET_ERRORS, 1)] /\
       for_each (cycle_item E B C pname p) (saved :: rest) acc s
         = for_each (cycle_item E B C pname p) rest
             (true, found_one (snd acc)) s1).
Proof.
  split; [| split; [| split]].
  - unfold _gift_keys.
    destruct (id_present (saved_id saved)) as [sid |];
      [| destruct (id_present (msg_id saved)) as [mid |]]; cbn.
    + split; [intros _; left; discriminate | reflexivity].
    + split; [intros _; right; discriminate | reflexivity].
    + split; [discriminate | intros [H | H]; now destruct H].
  - intros sid Hs. unfold _gift_keys. now rewrite Hs.
  - intros mid Hs Hm. unfold _gift_keys. now rewrite Hs, Hm.
  - intros need prepaid can_up Hs Hm Hn boom.
    assert (Hk : _gift_keys saved p = Raise boom).
    { unfold _gift_keys. now rewrite Hs, Hm. }
    assert (Hrun : try_upgrade_one E B C saved p (balance (snd acc)) s
                   = (Raise boom, s)).
    { unfold try_upgrade_one. rewrite Hn, Hk. reflexivity. }
    split; [exact Hk |]. split; [exact Hrun |].
    destruct (cycle_item E B C pname p saved acc s) as [r s1] eqn:Hitem.
    pose proof (cycle_item_after_Raise pname _ _ _ _ _ _ Hrun) as Hfacts.
    cbv zeta in Hfacts. rewrite Hitem in Hfacts. cbn [fst snd] in Hfacts.
    destruct Hfacts as (-> & H1 & H2 & H3 & H4 & H5 & _).
    exists s1. repeat split; try assumption.
    cbn [for_each]. unfold bind at 1. now rewrite Hitem.
Qed.

End Cycle.

(** ** Pagination *)

Section Pagination.
Context {W : Type}.
Variable E : env W.

(** Collecting the gifts of one page. *)
Lemma for_each_collect (gifts : list saved_gift) :
  forall (acc : list saved_gift) (s : machine W),
  for_each (fun g acc => ret (acc ++ [g])) gifts acc s
    = (Ok (acc ++ gifts), s).
Proof.
  induction gifts as [| g rest IH]; intros acc s; cbn.
  - now rewrite app_nil_r.
  - unfold bind, ret. cbn. fold (@ret W (list saved_gift)).
    rewrite IH. now rewrite <- app_assoc.
Qed.

(** The reader follows a served chain of pages to its end, with any
    fuel that is at least the number of pages. *)
Lemma iter_pages_collect p limit w offset pages w' :
  served E p limit w offset pages w' ->
  forall fuel acc s,
  (length pages <= fuel)%nat ->
  world s = w ->
  let run := iter_pages E fuel p limit offset
               (fun g acc => ret (acc ++ [g])) acc s in
  fst run = Ok (Some (acc ++ concat (map snd pages))) /\
  world (snd run) = w' /\
  sent (snd run)
    = sent s ++ map (fun pg => GetSavedStarGiftsRequest p (fst pg) limit true)
                    pages /\
  counters (snd run)
    = counters s ++ map (fun pg => (MET_GIFTS_SCANNED,
                                   Z.of_nat (length (snd pg)))) pages /\
  STATE (snd run) = STATE s /\
  AUDIT_JSONL (snd run) = AUDIT_JSONL s.
Proof.
  induction 1 as [w offset res w' Hc Hend
                 | w offset res w' offset' pages w'' Hc Hmore Hrest IH];
    intros fuel acc s Hfuel Hw;
    (destruct fuel as [| fuel]; [cbn in Hfuel; lia |]);
    subst w; cbv zeta;
    match goal with
    | |- context [iter_pages E ?f p limit offset ?b acc s] =>
        destruct (iter_pages E f p limit offset b acc s) as [r s'] eqn:Hrun
    end;
    cbn [iter_pages] in Hrun;
    unfold bind at 1 in Hrun; unfold call at 1 in Hrun; rewrite Hc in Hrun;
    unfold bind at 1 in Hrun; rewrite for_each_collect in Hrun;
    unfold bind at 1 in Hrun; unfold inc at 1 in Hrun.
  - rewrite Hend in Hrun. injection Hrun as <- <-. cbn.
    rewrite app_nil_r. repeat split; reflexivity.
  - rewrite Hmore in Hrun. cbn in Hfuel.
    match type of Hrun with
    | iter_pages E fuel p limit offset' _ ?a ?st = _ =>
        destruct (IH fuel a st ltac:(lia) eq_refl)
          as (Hr & Hw' & Hs & Hcnt & Hst & Haud)
    end.
    rewrite Hrun in Hr, Hw', Hs, Hcnt, Hst, Haud.
    cbn in Hr, Hw', Hs, Hcnt, Hst, Haud. cbn.
    rewrite Hr, Hw', Hs, Hcnt, Hst, Haud.
    rewrite <- !app_assoc. repeat split; reflexivity.
Qed.


End Pagination.

(** ** The paged service *)

Section PagedService.
Import Scripted.
Variable items : list saved_gift.
Variable p : peer.
Variable limit : Z.
Hypothesis limit_pos : 0 < limit.

Lemma cursor_length n : String.length (cursor n) = n.
Proof. induction n as [| n IH]; cbn; [reflexivity | now rewrite IH]. Qed.

Lemma cursor_continues n :
  (0 < n)%nat -> continues (Some (cursor n)) = Some (cursor n).
Proof. destruct n as [| n]; [lia | reflexivity]. Qed.

Lemma paged_service_answer i :
  client (paged_service items)
    (GetSavedStarGiftsRequest p (cursor i) limit true) tt
  = (Ok (SavedStarGifts
           (Some (take (Z.to_nat limit) (drop i items)))
           (if (i + Z.to_nat limit <? length items)%nat
            then Some (cursor (i + Z.to_nat limit)) else None)), tt).
Proof.
  unfold paged_service. cbn [client]. now rewrite cursor_length.
Qed.

(** From any index the service answers a chain of pages that holds
    exactly the remaining items, none of the pages over the limit. *)
Lemma paged_service_served_from k :
  forall i, (length items - i <= k)%nat ->
  exists pages,
    served (paged_service items) p limit tt (cursor i) pages tt /\
    concat (map snd pages) = drop i items /\
    Forall (fun pg => (length (snd pg) <= Z.to_nat limit)%nat) pages.
Proof.
  induction k as [| k IH]; intros i Hk.
  - exists [(cursor i, take (Z.to_nat limit) (drop i items))].
    assert (Hlast : (i + Z.to_nat limit <? length items)%nat = false)
      by (apply Nat.ltb_ge; lia).
    split; [| split].
    + change (take (Z.to_nat limit) (drop i items))
        with (gifts_of (SavedStarGifts
                (Some (take (Z.to_nat limit) (drop i items))) None)).
      apply served_last.
      * rewrite paged_service_answer, Hlast. reflexivity.
      * reflexivity.
    + cbn. rewrite app_nil_r. apply take_ge. rewrite length_drop. lia.
    + constructor; [| constructor]. cbn. rewrite length_take. lia.
  - destruct (i + Z.to_nat limit <? length items)%nat eqn:Hmore.
    + apply Nat.ltb_lt in Hmore.
      destruct (IH (i + Z.to_nat limit)%nat ltac:(lia))
        as (pages & Hs & Hc & Hall).
      exists ((cursor i, take (Z.to_nat limit) (drop i items)) :: pages).
      split; [| split].
      * change (take (Z.to_nat limit) (drop i items))
          with (gifts_of (SavedStarGifts
                  (Some (take (Z.to_nat limit) (drop i items)))
                  (Some (cursor (i + Z.to_nat limit))))).
        eapply served_next; [| | exact Hs].
        -- rewrite paged_service_answer.
           apply Nat.ltb_lt in Hmore. rewrite Hmore. reflexivity.
        -- cbn [next_offset_of]. apply cursor_continues. lia.
      * cbn. rewrite Hc, <- drop_drop. apply take_drop.
      * constructor; [| exact Hall]. cbn. rewrite length_take. lia.
    + exists [(cursor i, take (Z.to_nat limit) (drop i items))].
      apply Nat.ltb_ge in Hmore.
      assert (Hlast : (i + Z.to_nat limit <? length items)%nat = false)
        by (apply Nat.ltb_ge; lia).
      split; [| split].
      * change (take (Z.to_nat limit) (drop i items))
          with (gifts_of (SavedStarGifts
                  (Some (take (Z.to_nat limit) (drop i items))) None)).
        apply served_last.
        -- rewrite paged_service_answer, Hlast. reflexivity.
        -- reflexivity.
      * cbn. rewrite app_nil_r. apply take_ge. rewrite length_drop. lia.
      * constructor; [| constructor]. cbn. rewrite length_take. lia.
Qed.

(** Reading the paged service yields exactly its items, in order, for
    every collection and every positive page size. *)
Lemma collect_paged_service (s : machine unit) :
  exists fuel,
    forall fuel', (fuel <= fuel')%nat ->
    fst (collect_saved_gifts (paged_service items) fuel' p limit s)
      = Ok (Some items).
Proof.
  destruct (paged_service_served_from (length items) 0%nat ltac:(lia))
    as (pages & Hs & Hc & _).
  cbn in Hs, Hc.
  assert (Hw : world s = tt) by now destruct (world s).
  exists (length pages). intros fuel' Hfuel.
  destruct (iter_pages_collect (paged_service items) p limit _ _ _ _ Hs
              fuel' [] s Hfuel Hw) as (Hr & _).
  cbn in Hr. rewrite Hc in Hr. exact Hr.
Qed.

End PagedService.

(** ** Concrete runs *)

Section Runs.
Import Scripted.


(** C3, as the specification words it, fails: the four skip branches
    append no event of their own, so a run that answers can leave one
    line (the [consider] line alone), and a run that upgrades leaves
    two; neither "one per run" nor "one per branch" holds. *)
Lemma C3_counterexample :
  ~ (forall (saved : saved_gift) (bal : Z) (s : machine script) ok m sp,
       let run := try_upgrade_one scripted runtime live saved
                    InputPeerSelf bal s in
       fst run = Ok (ok, m, sp) ->
       exists c t, AUDIT_JSONL (snd run) = AUDIT_JSONL s ++ [c; t])
  /\
  ~ (forall (saved : saved_gift) (bal : Z) (s : machine script) ok m sp,
       let run := try_upgrade_one scripted runtime live saved
                    InputPeerSelf bal s in
       fst run = Ok (ok, m, sp) ->
       exists c, AUDIT_JSONL (snd run) = AUDIT_JSONL s ++ [c]).
Proof.
  split; intros H.
  - destruct (H (paid_gift 5 50) 30 (boot (healthy []))
                false (No_balance 50 30) 0 ltac:(vm_compute; reflexivity))
      as (c & t & Heq).
    apply (f_equal (@length _)) in Heq. vm_compute in Heq. discriminate.
  - destruct (H (paid_gift 5 50) 100
                (boot (healthy [Ok (PaymentForm 9); Ok Updates]))
                true (Paid_ok 50) 50 ltac:(vm_compute; reflexivity))
      as (c & Heq).
    apply (f_equal (@length _)) in Heq. vm_compute in Heq. discriminate.
Qed.

Lemma C4_dry_run_no_remote_effect_witness :
  let s := boot (healthy []) in
  let w := healthy [] in
  let run := try_upgrade_one scripted runtime dry (prepaid_gift 5)
               InputPeerSelf 0 s in
  (DRY_RUN dry = true /\
   _gift_need_and_flags runtime (prepaid_gift 5) = Ok (0, true, true) /\
   _gift_keys (prepaid_gift 5) InputPeerSelf
     = Ok ("user_msg:5", InputSavedStarGiftUser 5, "user_msg") /\
   STATE s !! state_key (peer_str InputPeerSelf) "user_msg:5" = None /\
   (true = true \/ (0 < 0 /\ 0 <= 0))) /\
  sent (snd run) = sent s /\
  filter (fun r => is_mutating r = true) (sent (snd run))
    = filter (fun r => is_mutating r = true) (sent s) /\
  fst run = Ok (true, Prepaid_dry, 0) /\
  AUDIT_JSONL (snd run)
    = AUDIT_JSONL s
      ++ [(Ev_consider "user_msg:5" (peer_str InputPeerSelf) 0 true true,
           now scripted (world s));
          (Ev_dry_upgrade_prepaid "user_msg:5", now scripted w)] /\
  STATE (snd run)
    = <[state_key (peer_str InputPeerSelf) "user_msg:5" := now scripted w]>
        (STATE s) /\
  STATE_DB (snd run)
    = <[state_key (peer_str InputPeerSelf) "user_msg:5" := now scripted w]>
        (STATE s).
Proof.
  intros s w run.
  assert (Hn : _gift_need_and_flags runtime (prepaid_gift 5)
               = Ok (0, true, true)) by (vm_compute; reflexivity).
  assert (Hk : _gift_keys (prepaid_gift 5) InputPeerSelf
               = Ok ("user_msg:5", InputSavedStarGiftUser 5, "user_msg"))
    by (vm_compute; reflexivity).
  assert (Hfresh : STATE s !! state_key (peer_str InputPeerSelf) "user_msg:5"
                   = None) by (vm_compute; reflexivity).
  split; [repeat split; try assumption; left; reflexivity |].
  destruct (C4_dry_run_no_remote_effect scripted runtime dry (prepaid_gift 5)
              InputPeerSelf 0 s eq_refl) as (Hsent & Hmut & _ & Helig).
  split; [exact Hsent |]. split; [exact Hmut |].
  exact (Helig 0 true true "user_msg:5" (InputSavedStarGiftUser 5)
           "user_msg" w w w Hn Hk Hfresh (or_introl eq_refl)
           eq_refl eq_refl eq_refl).
Defined.


(** C8, as the specification words it, fails: the failed write is not
    swallowed where it happens.  Here the second audit line cannot be
    written: the prepaid upgrade has been sent, then [append_audit]
    raises, the run raises with it and no dedup record is written;
    with a writable audit file the same run answers the success and
    records the gift. *)
Lemma C8_counterexample :
  let bad := boot (flaky_audit [Ok Updates] [None; Some "ENOSPC"]) in
  let good := boot (healthy [Ok Updates]) in
  let run_bad := try_upgrade_one scripted runtime live (prepaid_gift 5)
                   InputPeerSelf 0 bad in
  let run_good := try_upgrade_one scripted runtime live (prepaid_gift 5)
                    InputPeerSelf 0 good in
  fst (append_audit scripted (Ev_upgrade_prepaid_ok "user_msg:5")
         (boot (flaky_audit [] [Some "ENOSPC"])))
    = Raise (OSError "ENOSPC") /\
  fst run_bad = Raise (OSError "ENOSPC") /\
  sent (snd run_bad)
    = [UpgradeStarGiftRequest (InputSavedStarGiftUser 5) (Some true)] /\
  STATE (snd run_bad) !! "InputPeerSelf():user_msg:5" = None /\
  fst run_good = Ok (true, Prepaid_ok, 0) /\
  STATE (snd run_good) !! "InputPeerSelf():user_msg:5"
    = Some 1700000000 /\
  ~ (forall (s : machine script) ev,
       is_Ok (fst (append_audit scripted ev s)) = true).
Proof.
  cbv zeta. repeat split; try (vm_compute; reflexivity).
  intros H.
  specialize (H (boot (flaky_audit [] [Some "ENOSPC"]))
                (Ev_upgrade_prepaid_ok "user_msg:5")).
  vm_compute in H. discriminate.
Qed.

Lemma C8_audit_failure_leaves_item_to_cycle_witness :
  let s := boot (flaky_audit [Ok Updates] [Some "ENOSPC"]) in
  let w1 := flaky_audit [Ok Updates] [] in
  let ev := Ev_consider "user_msg:5" (peer_str InputPeerSelf) 0 true true in
  let item := cycle_item scripted runtime live "me" InputPeerSelf
                (prepaid_gift 5) (start_totals 0) s in
  (_gift_need_and_flags runtime (prepaid_gift 5) = Ok (0, true, true) /\
   _gift_keys (prepaid_gift 5) InputPeerSelf
     = Ok ("user_msg:5", InputSavedStarGiftUser 5, "user_msg") /\
   audit_write scripted (ev, now scripted (world s)) (world s)
     = (Some "ENOSPC", w1)) /\
  append_audit scripted ev s = (Raise (OSError "ENOSPC"), set_world w1 s) /\
  try_upgrade_one scripted runtime live (prepaid_gift 5) InputPeerSelf
    (balance (snd (start_totals 0))) s
    = (Raise (OSError "ENOSPC"), set_world w1 s) /\
  fst item = Ok (true, found_one (snd (start_totals 0))) /\
  STATE (snd item) = STATE s /\
  STATE_DB (snd item) = STATE_DB s /\
  AUDIT_JSONL (snd item) = AUDIT_JSONL s /\
  sent (snd item) = sent s /\
  counters (snd item) = counters s ++ [(MET_ERRORS, 1)] /\
  logger (snd item)
    = logger s ++ [(ERROR, "[" +:+ "me" +:+ "] Unexpected: " +:+ "ENOSPC")].
Proof.
  intros s w1 ev item.
  assert (Hn : _gift_need_and_flags runtime (prepaid_gift 5)
               = Ok (0, true, true)) by (vm_compute; reflexivity).
  assert (Hk : _gift_keys (prepaid_gift 5) InputPeerSelf
               = Ok ("user_msg:5", InputSavedStarGiftUser 5, "user_msg"))
    by (vm_compute; reflexivity).
  assert (Ha : audit_write scripted (ev, now scripted (world s)) (world s)
               = (Some "ENOSPC", w1)) by reflexivity.
  split; [repeat split; assumption |].
  destruct (C8_audit_failure_leaves_item_to_cycle scripted runtime live "me"
              InputPeerSelf (prepaid_gift 5) (start_totals 0) s)
    as (Happ & Hconsider & _).
  split; [exact (Happ ev "ENOSPC" w1 Ha) |].
  exact (Hconsider 0 true true "user_msg:5" (InputSavedStarGiftUser 5)
           "user_msg" "ENOSPC" w1 Hn Hk Ha).
Defined.

(** C9, as the specification words it, fails: an item carrying both
    addressing schemes is not unprocessable.  Key construction answers
    the slot-based key and the engine goes on to upgrade the gift. *)
Lemma C9_counterexample :
  _gift_keys both_schemes_gift InputPeerSelf
    = Ok ("chat_saved:7", InputSavedStarGiftChat InputPeerSelf 7,
          "chat_saved") /\
  fst (try_upgrade_one scripted runtime live both_schemes_gift InputPeerSelf
         100 (boot (healthy [Ok (PaymentForm 9); Ok Updates])))
    = Ok (true, Paid_ok 50, 50) /\
  ~ (forall (saved : saved_gift) (p : peer),
       is_Ok (_gift_keys saved p) = true ->
       (id_present (saved_id saved) = None
        <-> id_present (msg_id saved) <> None)).
Proof.
  split; [vm_compute; reflexivity |].
  split; [vm_compute; reflexivity |].
  intros H.
  destruct (H both_schemes_gift InputPeerSelf ltac:(vm_compute; reflexivity))
    as [_ Hback].
  assert (Hm : id_present (msg_id both_schemes_gift) <> None)
    by (vm_compute; discriminate).
  apply Hback in Hm. vm_compute in Hm. discriminate.
Qed.

Lemma C9_gift_keys_at_least_one_scheme_witness :
  let s := boot (healthy [Ok (PaymentForm 9); Ok Updates]) in
  let boom :=
       RuntimeError
         "Не удалось собрать InputSavedStarGift (нет msg_id/saved_id)" in
  (id_present (saved_id no_scheme_gift) = None /\
   id_present (msg_id no_scheme_gift) = None /\
   _gift_need_and_flags runtime no_scheme_gift = Ok (50, false, true)) /\
  _gift_keys no_scheme_gift InputPeerSelf = Raise boom /\
  try_upgrade_one scripted runtime live no_scheme_gift InputPeerSelf
    (balance (snd (start_totals 100))) s = (Raise boom, s) /\
  exists s1,
    cycle_item scripted runtime live "me" InputPeerSelf no_scheme_gift
      (start_totals 100) s
      = (Ok (true, found_one (snd (start_totals 100))), s1) /\
    STATE s1 = STATE s /\ STATE_DB s1 = STATE_DB s /\
    AUDIT_JSONL s1 = AUDIT_JSONL s /\ sent s1 = sent s /\
    counters s1 = counters s ++ [(MET_ERRORS, 1)] /\
    for_each (cycle_item scripted runtime live "me" InputPeerSelf)
      (no_scheme_gift :: [paid_gift 5 50]) (start_totals 100) s
      = for_each (cycle_item scripted runtime live "me" InputPeerSelf)
          [paid_gift 5 50] (true, found_one (snd (start_totals 100))) s1.
Proof.
  intros s boom.
  assert (Hs : id_present (saved_id no_scheme_gift) = None) by reflexivity.
  assert (Hm : id_present (msg_id no_scheme_gift) = None) by reflexivity.
  assert (Hn : _gift_need_and_flags runtime no_scheme_gift
               = Ok (50, false, true)) by (vm_compute; reflexivity).
  split; [repeat split; assumption |].
  exact (proj2 (proj2 (proj2 (C9_gift_keys_at_least_one_scheme scripted
                                runtime live "me" InputPeerSelf
                                no_scheme_gift [paid_gift 5 50]
                                (start_totals 100) s)))
           50 false true Hs Hm Hn).
Defined.

Lemma C10_non_positive_cost_never_pays_witness :
  let s := boot (healthy [Ok (PaymentForm 9); Ok Updates]) in
  let run := try_upgrade_one scripted runtime live negative_cost_gift
               InputPeerSelf 100 s in
  (_gift_need_and_flags runtime negative_cost_gift = Ok (-5, false, true) /\
   -5 <= 0 /\
   _gift_keys negative_cost_gift InputPeerSelf
     = Ok ("user_msg:5", InputSavedStarGiftUser 5, "user_msg") /\
   STATE s !! state_key (peer_str InputPeerSelf) "user_msg:5" = None /\
   audit_write scripted
     (Ev_consider "user_msg:5" (peer_str InputPeerSelf) (-5) false true,
      now scripted (world s)) (world s) = (None, world s)) /\
  (exists reqs, sent (snd run) = sent s ++ reqs /\
                forallb (fun r => negb (is_payment_request r)) reqs = true) /\
  (fst run = Ok (false, Skip_uncertain "user_msg:5", 0) /\
   sent (snd run) = sent s /\ STATE (snd run) = STATE s) /\
  as_int_stars runtime (PyStr "-5") = Ok (Z.neg 5).
Proof.
  intros s run.
  assert (Hn : _gift_need_and_flags runtime negative_cost_gift
               = Ok (-5, false, true)) by (vm_compute; reflexivity).
  assert (Hk : _gift_keys negative_cost_gift InputPeerSelf
               = Ok ("user_msg:5", InputSavedStarGiftUser 5, "user_msg"))
    by (vm_compute; reflexivity).
  assert (Hfresh : STATE s !! state_key (peer_str InputPeerSelf) "user_msg:5"
                   = None) by (vm_compute; reflexivity).
  assert (Ha : audit_write scripted
                 (Ev_consider "user_msg:5" (peer_str InputPeerSelf) (-5)
                    false true, now scripted (world s)) (world s)
               = (None, world s)) by reflexivity.
  assert (Hle : -5 <= 0) by lia.
  split; [repeat split; assumption |].
  destruct (C10_non_positive_cost_never_pays scripted runtime live
              negative_cost_gift InputPeerSelf 100 s (-5) false true Hn Hle)
    as (Hreqs & Hskip & _ & Hstr).
  split; [exact Hreqs |].
  split; [exact (Hskip "user_msg:5" (InputSavedStarGiftUser 5) "user_msg"
                   (world s) Hk Hfresh Ha eq_refl) |].
  apply Hstr. reflexivity.
Defined.

End Runs.


(** ** More on amount normalisation *)

Section MoreAsIntStars.
Variable B : builtins.


(** What it raises is never of the RPC classes. *)
Lemma as_int_stars_raise_class x e :
  as_int_stars B x = Raise e -> is_RPCError e = false.
Proof.
  destruct x as [| b | z | [sg | sg | | sg m ex] | s | fields d i];
    unfold as_int_stars.
  1-4, 7: cbn; discriminate.
  - cbn. intros H. injection H as <-. reflexivity.
  - cbn. intros H. injection H as <-. reflexivity.
  - destruct (float_of_str B s) as [f |]; [| discriminate].
    destruct (int_of_float f); discriminate.
  - destruct (first_attr_int B fields amount_fields); [discriminate |].
    destruct d as [d |]; [destruct (first_key_int B d amount_fields) |];
      try discriminate; destruct i; cbn; discriminate.
Qed.

(** The fields of an amount object are tried in the order [amount],
    [value], [units]: a field that converts decides the result whatever
    the later fields, the dictionary and the object's own conversion
    hold; a field that is absent, [None] or does not convert passes
    the turn to the next one; and the dictionary of [to_dict] is only
    consulted when no field converted. *)
Theorem as_int_stars_field_order fields d i :
  (forall n, field_int B fields "amount" = Some n ->
     as_int_stars B (PyObj fields d i) = Ok n) /\
  (forall n, field_int B fields "amount" = None ->
     field_int B fields "value" = Some n ->
     as_int_stars B (PyObj fields d i) = Ok n) /\
  (forall n, field_int B fields "amount" = None ->
     field_int B fields "value" = None ->
     field_int B fields "units" = Some n ->
     as_int_stars B (PyObj fields d i) = Ok n) /\
  (field_int B fields "amount" = None ->
   field_int B fields "value" = None ->
   field_int B fields "units" = None ->
   as_int_stars B (PyObj fields d i)
     = Ok (match match d with
                 | Some dict => first_key_int B dict amount_fields
                 | None => None
                 end with
           | Some n => n
           | None => default 0 i
           end)).
Proof.
  unfold field_int, as_int_stars, amount_fields. cbn [first_attr_int].
  repeat split.
  - intros n.
    destruct (assoc "amount" fields) as [v |]; [| discriminate].
    destruct (is_None v); [discriminate |].
    destruct (py_int B v); [| discriminate]. now intros [= ->].
  - intros n.
    destruct (assoc "amount" fields) as [v |];
      [destruct (is_None v); [| destruct (py_int B v); [discriminate |]] |];
      intros _;
      (destruct (assoc "value" fields) as [v' |]; [| discriminate]);
      (destruct (is_None v'); [discriminate |]);
      (destruct (py_int B v'); [| discriminate]); now intros [= ->].
  - intros n.
    destruct (assoc "amount" fields) as [v |];
      [destruct (is_None v); [| destruct (py_int B v); [discriminate |]] |];
      intros _;
      (destruct (assoc "value" fields) as [v' |];
         [destruct (is_None v'); [| destruct (py_int B v'); [discriminate |]] |]);
      intros _;
      (destruct (assoc "units" fields) as [v'' |]; [| discriminate]);
      (destruct (is_None v''); [discriminate |]);
      (destruct (py_int B v''); [| discriminate]); now intros [= ->].
  - destruct (assoc "amount" fields) as [v |];
      [destruct (is_None v); [| destruct (py_int B v); [discriminate |]] |];
      intros _;
      (destruct (assoc "value" fields) as [v' |];
         [destruct (is_None v'); [| destruct (py_int B v'); [discriminate |]] |]);
      intros _;
      (destruct (assoc "units" fields) as [v'' |];
         [destruct (is_None v''); [| destruct (py_int B v''); [discriminate |]] |]);
      intros _;
      (destruct d as [dict |];
         [destruct (first_key_int B dict _); [reflexivity |] |]);
      destruct i; reflexivity.
Qed.

(** The cost of a gift: the inner descriptor decides when it carries
    the attribute, even with [None] (which is zero), and the item level
    decides otherwise; but the item level is normalised first, so a
    value it cannot normalise raises whatever the inner descriptor
    holds. *)
Theorem gift_need_inner_descriptor_decides saved :
  (forall e, as_int_stars B (default (PyInt 0) (upgrade_stars saved))
             = Raise e ->
     _gift_need_and_flags B saved = Raise e) /\
  (forall need0,
     as_int_stars B (default (PyInt 0) (upgrade_stars saved)) = Ok need0 ->
     let prepaid := truthy (default PyNone (prepaid_upgrade_hash saved)) in
     let can_up := truthy (default (PyBool false) (can_upgrade saved)) in
     (gift saved = None ->
        _gift_need_and_flags B saved = Ok (need0, prepaid, can_up)) /\
     (forall sg, gift saved = Some sg -> sg_upgrade_stars sg = None ->
        _gift_need_and_flags B saved = Ok (need0, prepaid, can_up)) /\
     (forall sg, gift saved = Some sg -> sg_upgrade_stars sg = Some PyNone ->
        _gift_need_and_flags B saved = Ok (0, prepaid, can_up)) /\
     (forall sg v n, gift saved = Some sg -> sg_upgrade_stars sg = Some v ->
        as_int_stars B v = Ok n ->
        _gift_need_and_flags B saved = Ok (n, prepaid, can_up))).
Proof.
  unfold _gift_need_and_flags. split.
  - intros e ->. reflexivity.
  - intros need0 ->. cbv zeta. repeat split.
    + intros ->. reflexivity.
    + intros sg -> ->. cbn. reflexivity.
    + intros sg -> ->. reflexivity.
    + intros sg v n -> ->. cbn. intros ->. reflexivity.
Qed.

Lemma gift_need_and_flags_raise_class saved e :
  _gift_need_and_flags B saved = Raise e -> is_RPCError e = false.
Proof.
  unfold _gift_need_and_flags.
  destruct (as_int_stars B (default (PyInt 0) (upgrade_stars saved)))
    as [need0 | e0] eqn:H0.
  - destruct (gift saved) as [sg |]; [| cbv beta iota zeta; discriminate].
    destruct (as_int_stars B (default (PyInt need0) (sg_upgrade_stars sg)))
      as [n | e1] eqn:H1; [cbv beta iota zeta; discriminate |].
    intros [= <-]. exact (as_int_stars_raise_class _ _ H1).
  - intros [= <-]. exact (as_int_stars_raise_class _ _ H0).
Qed.

End MoreAsIntStars.

Lemma gift_keys_raise_class saved p e :
  _gift_keys saved p = Raise e -> is_RPCError e = false.
Proof.
  unfold _gift_keys.
  destruct (id_present (saved_id saved)); [discriminate |].
  destruct (id_present (msg_id saved)); [discriminate |].
  intros [= <-]. reflexivity.
Qed.

Lemma form_id_of_raise_class r e :
  form_id_of r = Raise e -> is_RPCError e = false.
Proof. destruct r; cbn; try discriminate; intros [= <-]; reflexivity. Qed.

(** The page limit is always one the service accepts, and a configured
    value already in range is kept as it is. *)
Theorem clamp_page_limit_in_range raw :
  1 <= clamp_page_limit raw <= 100 /\
  (1 <= raw <= 100 -> clamp_page_limit raw = raw) /\
  (raw < 1 -> clamp_page_limit raw = 1) /\
  (100 < raw -> clamp_page_limit raw = 100) /\
  clamp_page_limit (clamp_page_limit raw) = clamp_page_limit raw.
Proof. unfold clamp_page_limit. lia. Qed.


(** ** More on the decision engine *)

Lemma counter_value_app m cs1 cs2 :
  counter_value m (cs1 ++ cs2) = counter_value m cs1 + counter_value m cs2.
Proof.
  unfold counter_value.
  induction cs1 as [| [m' n] cs1 IH]; cbn; [lia |].
  rewrite IH. destruct m, m'; lia.
Qed.

Section MoreEngine.
Context {W : Type}.
Variable E : env W.
Variable B : builtins.
Variable C : config.

(** No exception of the RPC classes leaves [try_upgrade_one]: the two
    [except RPCError] clauses take every one the executors raise, a
    flood wait included, and what else can raise (normalisation, key
    construction, the two files) raises other classes. *)
Lemma try_upgrade_one_raise_class saved p bal s e :
  fst (try_upgrade_one E B C saved p bal s) = Raise e ->
  is_RPCError e = false.
Proof.
  destruct (try_upgrade_one E B C saved p bal s) as [r s'] eqn:H.
  cbn [fst]. intros Hr. subst r.
  unfold_engine H. run_all H.
  all: inversion H; subst; clear H.
  all: try reflexivity; try assumption.
  all: try (eapply gift_need_and_flags_raise_class; eassumption).
  all: try (eapply gift_keys_raise_class; eassumption).
  all: try (eapply form_id_of_raise_class; eassumption).
Qed.

(** The metrics, the log and the sleeps of one run: it never sleeps, it
    never counts a flood wait, and what it adds to the request list,
    the metric calls and the log is added at the end. *)
Lemma try_upgrade_one_trace saved p bal s :
  let run := try_upgrade_one E B C saved p bal s in
  slept (snd run) = slept s /\
  exists reqs cs ls,
    sent (snd run) = sent s ++ reqs /\
    counters (snd run) = counters s ++ cs /\
    logger (snd run) = logger s ++ ls /\
    counter_value MET_FLOODWAIT cs = 0 /\
    (length reqs <= 5)%nat /\
    (length (List.filter is_send_form reqs) <= 1)%nat /\
    forallb is_mutating reqs = true /\
    match fst run with
    | Ok (ok, m, sp) =>
        counter_value MET_UPGR_SUCCESS cs
          = match m with Prepaid_ok | Paid_ok _ => 1 | _ => 0 end /\
        counter_value MET_ERRORS cs
          = match m with Paid_error _ => 1 | _ => 0 end /\
        counter_value MET_GIFTS_UPGRADABLE cs
          = match m with
            | Skip_already_done _ | Skip_not_upgradable _ => 0
            | _ => 1
            end /\
        counter_value MET_UPGR_SUCCESS cs
          <= counter_value MET_UPGR_ATTEMPTS cs <= 2 /\
        (forall r, In r reqs -> is_send_form r = true ->
           (exists n, m = Paid_ok n) \/ (exists e, m = Paid_error e)) /\
        match m with
        | Prepaid_ok | Prepaid_dry =>
            forallb is_upgrade_request reqs = true
        | Skip_already_done _ | Skip_not_upgradable _ | Paid_dry _ =>
            forallb is_upgrade_request reqs = true
        | _ => True
        end
    | Raise _ => True
    end.
Proof.
  cbv zeta.
  destruct (try_upgrade_one E B C saved p bal s) as [r s'] eqn:H.
  cbn [fst snd].
  unfold_engine H. run_all H.
  all: inversion H; subst; clear H; cbn [slept sent counters logger].
  all: split; [reflexivity |].
  all: eexists _, _, _.
  all: split; [give_suffix |].
  all: split; [give_suffix |].
  all: split; [give_suffix |].
  all: cbn.
  all: repeat split; try reflexivity; try lia; try exact I.
  all: try (intros r Hin Hs;
            repeat (destruct Hin as [<- | Hin]; [try discriminate Hs |]);
            try (now destruct Hin);
            first [ left; eexists; reflexivity
                  | right; eexists; reflexivity ]).
Qed.

End MoreEngine.


Section EngineFacts.
Context {W : Type}.
Variable E : env W.
Variable B : builtins.
Variable C : config.

Local Arguments try_upgrade_one : simpl never.

(** One run of the engine sends at most five requests, all of them
    upgrade or payment requests, and among them at most one payment
    submission; a submission is only ever sent by a run that answers
    the paid success or the paid failure. *)
Theorem try_upgrade_one_pays_at_most_once saved p bal s :
  let run := try_upgrade_one E B C saved p bal s in
  exists reqs,
    sent (snd run) = sent s ++ reqs /\
    (length reqs <= 5)%nat /\
    forallb is_mutating reqs = true /\
    (length (List.filter is_send_form reqs) <= 1)%nat /\
    forall ok m sp, fst run = Ok (ok, m, sp) ->
      forall r, In r reqs -> is_send_form r = true ->
      (exists n, m = Paid_ok n) \/ (exists e, m = Paid_error e).
Proof.
  cbv zeta.
  destruct (try_upgrade_one_trace E B C saved p bal s)
    as (_ & reqs & cs & ls & Hs & _ & _ & _ & Hlen & Hsend & Hmut & Hres).
  cbv zeta in Hs, Hres.
  exists reqs. repeat split; try assumption.
  intros ok m sp Hr. rewrite Hr in Hres.
  destruct Hres as (_ & _ & _ & _ & Honly & _). exact Honly.
Qed.

(** The counters of one run agree with its answer: a success is
    counted exactly by the two live successes (never by a dry run), an
    error exactly by the paid failure, an upgradable gift by every
    answer past the two first checks; attempts are at most two and
    never fewer than successes. *)
Theorem try_upgrade_one_counters_match_answer saved p bal s ok m sp :
  let run := try_upgrade_one E B C saved p bal s in
  fst run = Ok (ok, m, sp) ->
  exists cs,
    counters (snd run) = counters s ++ cs /\
    counter_value MET_UPGR_SUCCESS cs
      = match m with Prepaid_ok | Paid_ok _ => 1 | _ => 0 end /\
    counter_value MET_ERRORS cs
      = match m with Paid_error _ => 1 | _ => 0 end /\
    counter_value MET_GIFTS_UPGRADABLE cs
      = match m with
        | Skip_already_done _ | Skip_not_upgradable _ => 0
        | _ => 1
        end /\
    counter_value MET_UPGR_SUCCESS cs
      <= counter_value MET_UPGR_ATTEMPTS cs <= 2 /\
    counter_value MET_FLOODWAIT cs = 0.
Proof.
  cbv zeta. intros Hr.
  destruct (try_upgrade_one_trace E B C saved p bal s)
    as (_ & reqs & cs & ls & _ & Hc & _ & Hfl & _ & _ & _ & Hres).
  cbv zeta in Hc, Hres. rewrite Hr in Hres.
  destruct Hres as (H1 & H2 & H3 & H4 & _).
  exists cs. repeat split; try assumption; lia.
Qed.

(** The loop body never sleeps and never counts a flood wait: since no
    RPC-class exception leaves [try_upgrade_one], its first two
    handlers never run for an item. *)
Theorem cycle_item_never_sleeps pname p saved acc s :
  let run := try_upgrade_one E B C saved p (balance (snd acc)) s in
  let item := cycle_item E B C pname p saved acc s in
  (forall e, fst run = Raise e -> is_RPCError e = false) /\
  slept (snd item) = slept s /\
  counter_value MET_FLOODWAIT (counters (snd item))
    = counter_value MET_FLOODWAIT (counters s).
Proof.
  cbv zeta.
  split; [intros e; apply try_upgrade_one_raise_class |].
  destruct (try_upgrade_one_trace E B C saved p (balance (snd acc)) s)
    as (Hsl & reqs & cs & ls & _ & Hc & _ & Hfl & _).
  cbv zeta in Hsl, Hc.
  destruct (try_upgrade_one E B C saved p (balance (snd acc)) s)
    as [[[[ok m] sp] | e] s1] eqn:H; cbn [snd] in Hsl, Hc.
  - rewrite (cycle_item_after_Ok _ _ _ _ _ _ _ _ _ _ _ _ H).
    unfold log. cbn [snd slept counters].
    rewrite Hsl, Hc, counter_value_app. split; [reflexivity | lia].
  - pose proof (try_upgrade_one_raise_class E B C saved p
                  (balance (snd acc)) s e) as Hcls.
    rewrite H in Hcls. specialize (Hcls eq_refl).
    destruct (cycle_item_after_Raise E B C pname _ _ _ _ _ _ H)
      as (_ & _ & _ & _ & _ & Hcnt & _).
    cbv zeta in Hcnt. rewrite Hcnt, Hc, !counter_value_app, Hfl.
    split.
    + unfold cycle_item, try_except, bind. cbn [snd fst balance].
      rewrite H.
      destruct e; try discriminate Hcls; cbn [snd slept]; exact Hsl.
    + destruct e; try discriminate Hcls; cbn; lia.
Qed.

(** A prepaid success costs nothing: the run that answers it is a live
    run on a gift with a prepaid token, it reports nothing spent, and
    what it sent is one upgrade request, or two when the first was
    retried without the flag; never a payment request. *)
Theorem prepaid_success_costs_nothing saved p bal s ok sp :
  let run := try_upgrade_one E B C saved p bal s in
  fst run = Ok (ok, Prepaid_ok, sp) ->
  ok = true /\ sp = 0 /\ DRY_RUN C = false /\
  (exists need can_up,
     _gift_need_and_flags B saved = Ok (need, true, can_up)) /\
  exists reqs,
    sent (snd run) = sent s ++ reqs /\
    (1 <= length reqs <= 2)%nat /\
    forallb is_upgrade_request reqs = true /\
    forallb (fun r => negb (is_payment_request r)) reqs = true.
Proof.
  cbv zeta.
  destruct (try_upgrade_one E B C saved p bal s) as [r s'] eqn:H.
  cbn [fst snd]. intros Hr. subst r.
  unfold_engine H. run_all H.
  all: inversion H; subst; clear H; cbn [sent].
  all: split; [reflexivity |]; split; [reflexivity |].
  all: split; [reflexivity || assumption |].
  all: split; [eauto |].
  all: eexists; split; [give_suffix |].
  all: cbn; repeat split; try reflexivity; lia.
Qed.

(** A rejected prepaid upgrade is not the end of the item: whatever
    RPC-class exception the request raises (a flood wait too), the run
    logs it and goes on to the paid path, where a cost that is not
    positive ends in [skip: uncertain], a cost above the balance in
    [no-balance], and a cost the balance covers is paid. *)
Theorem prepaid_rejection_falls_through saved p bal s
  need can_up key inp kt w1 e w2 :
  DRY_RUN C = false ->
  upgrade_has_keep (TL_LAYER C) = true ->
  _gift_need_and_flags B saved = Ok (need, true, can_up) ->
  _gift_keys saved p = Ok (key, inp, kt) ->
  STATE s !! state_key (peer_str p) key = None ->
  audit_write E (Ev_consider key (peer_str p) need true can_up,
                 now E (world s)) (world s) = (None, w1) ->
  client E (UpgradeStarGiftRequest inp (Some (KEEP_ORIGINAL_DETAILS C))) w1
    = (Raise e, w2) ->
  is_RPCError e = true ->
  let run := try_upgrade_one E B C saved p bal s in
  let inv := InputInvoiceStarGiftUpgrade inp
               (Some (KEEP_ORIGINAL_DETAILS C)) in
  (need <= 0 ->
     fst run = Ok (false, Skip_uncertain key, 0) /\
     STATE (snd run) = STATE s) /\
  (0 < need -> bal < need ->
     fst run = Ok (false, No_balance need bal, 0) /\
     STATE (snd run) = STATE s) /\
  (forall form w3 fid r w4 w5 w6,
     0 < need -> need <= bal ->
     invoice_has_keep (TL_LAYER C) = true ->
     client E (GetPaymentFormRequest inv) w2 = (Ok form, w3) ->
     form_id_of form = Ok fid ->
     client E (SendStarsFormRequest fid inv) w3 = (Ok r, w4) ->
     audit_write E (Ev_upgrade_paid_ok key need, now E w4) w4 = (None, w5) ->
     state_write E (<[state_key (peer_str p) key := now E w5]> (STATE s)) w5
       = (None, w6) ->
     fst run = Ok (true, Paid_ok need, need) /\
     STATE (snd run)
       = <[state_key (peer_str p) key := now E w5]> (STATE s) /\
     sent (snd run)
       = sent s ++ [UpgradeStarGiftRequest inp
                      (Some (KEEP_ORIGINAL_DETAILS C));
                    GetPaymentFormRequest inv;
                    SendStarsFormRequest fid inv]).
Proof.
  intros Hlive HL Hn Hk Hfresh Ha1 Hc He run inv.
  assert (Hty : is_TypeError e = false) by (destruct e; cbn in *; congruence).
  subst run inv.
  unfold try_upgrade_one, _upgrade_prepaid, _upgrade_paid,
    new_UpgradeStarGiftRequest, new_InputInvoiceStarGiftUpgrade.
  rewrite Hlive, HL, Hn, Hk.
  unfold bind, try_except, lift, ret, inc, log, append_audit,
    mark_upgraded, save_state, already_upgraded, call. cbn.
  rewrite Ha1. cbn. rewrite Hfresh. cbn. rewrite andb_false_r. cbn.
  rewrite Hc. cbn. rewrite Hty, He. cbn.
  split; [| split].
  - intros Hle. assert (Hlt : (0 <? need) = false) by lia.
    rewrite Hlt. split; reflexivity.
  - intros Hpos Hb. assert (Hlt : (0 <? need) = true) by lia.
    assert (Hbl : (bal <? need) = true) by lia.
    rewrite Hlt, Hbl. split; reflexivity.
  - intros form w3 fid r w4 w5 w6 Hpos Hle HLi Hf Hfid Hsend Ha2 Hsw.
    assert (Hlt : (0 <? need) = true) by lia.
    assert (Hbl : (bal <? need) = false) by lia.
    rewrite Hlt, Hbl, HLi. cbn.
    rewrite Hf. cbn. rewrite Hfid. cbn. rewrite Hsend. cbn.
    rewrite Ha2. cbn. rewrite Hsw. cbn.
    rewrite <- !app_assoc. repeat split; reflexivity.
Qed.

(** What a paid executor that returns has sent: the payment form was
    requested for an invoice, once with the flag, or a second time
    without it after a [TypeError], and the submission that closes the
    call carries that same last invoice; nothing follows it. *)
Theorem upgrade_paid_submits_the_invoice_it_quoted inp need keep s :
  let run := _upgrade_paid E C inp need keep s in
  fst run = Ok tt ->
  exists earlier inv fid,
    sent (snd run)
      = sent s ++ earlier
               ++ [GetPaymentFormRequest inv; SendStarsFormRequest fid inv] /\
    ((earlier = [] /\
      inv = InputInvoiceStarGiftUpgrade inp (Some keep)) \/
     (earlier = [GetPaymentFormRequest
                   (InputInvoiceStarGiftUpgrade inp (Some keep))] /\
      inv = InputInvoiceStarGiftUpgrade inp None)) /\
    STATE (snd run) = STATE s /\
    AUDIT_JSONL (snd run) = AUDIT_JSONL s.
Proof.
  cbv zeta.
  destruct (_upgrade_paid E C inp need keep s) as [r s'] eqn:H.
  cbn [fst snd]. intros Hr. subst r.
  unfold _upgrade_paid in H. unfold_monad H. run_all H.
  all: inversion H; subst; clear H; cbn [sent STATE AUDIT_JSONL].
  - eexists [], _, _. split; [rewrite <- !app_assoc; reflexivity |].
    split; [left; split; reflexivity |]. split; reflexivity.
  - eexists [_], _, _. split; [rewrite <- !app_assoc; reflexivity |].
    split; [right; split; reflexivity |]. split; reflexivity.
Qed.

End EngineFacts.


(** ** Relations every step keeps *)

Section Keeps.
Context {W : Type}.
Variable E : env W.
Variable B : builtins.
Variable C : config.
Variable R : machine W -> machine W -> Prop.
Hypothesis R_refl : forall s, R s s.
Hypothesis R_trans : forall a b c, R a b -> R b c -> R a c.
Hypothesis R_world : forall w s, R s (set_world w s).
Hypothesis R_inc : forall m n, keeps R (@inc W m n).
Hypothesis R_log : forall l t, keeps R (@log W l t).
Hypothesis R_sleep : forall n, keeps R (@sleep W n).
Hypothesis R_read : forall req, is_mutating req = false -> keeps R (call E req).
Hypothesis R_item :
  forall saved p bal, keeps R (try_upgrade_one E B C saved p bal).

Lemma keeps_ret A (a : A) : keeps R (ret a).
Proof. intros s. apply R_refl. Qed.

Lemma keeps_lift A (r : result A) : keeps R (lift r).
Proof. intros s. apply R_refl. Qed.

Lemma keeps_bind A A' (c : M W A) (k : A -> M W A') :
  keeps R c -> (forall a, keeps R (k a)) -> keeps R (bind c k).
Proof.
  intros Hc Hk s. unfold bind. specialize (Hc s).
  destruct (c s) as [[a | e] s1]; cbn in *; [| exact Hc].
  eapply R_trans; [exact Hc | apply Hk].
Qed.

Lemma keeps_bind_lift A A' (r : result A) (k : A -> M W A') :
  (forall a, r = Ok a -> keeps R (k a)) -> keeps R (bind (lift r) k).
Proof.
  intros Hk s. unfold bind, lift. destruct r as [a | e]; cbn.
  - apply (Hk a eq_refl).
  - apply R_refl.
Qed.

Lemma keeps_try_except A (c : M W A) (h : exn -> option (M W A)) :
  keeps R c ->
  (forall e, match h e with Some k => keeps R k | None => True end) ->
  keeps R (try_except c h).
Proof.
  intros Hc Hh s. unfold try_except. specialize (Hc s).
  destruct (c s) as [[a | e] s1]; cbn in *; [exact Hc |].
  specialize (Hh e). destruct (h e) as [k |]; [| exact Hc].
  eapply R_trans; [exact Hc | apply Hh].
Qed.

Lemma keeps_gauge_set m v : keeps R (@gauge_set W m v).
Proof. apply R_inc. Qed.

Ltac keeps_go :=
  repeat first
    [ progress intros
    | exact I
    | apply keeps_ret
    | apply keeps_lift
    | apply R_inc
    | apply R_log
    | apply R_sleep
    | apply keeps_gauge_set
    | apply R_item
    | apply keeps_bind_lift
    | apply keeps_bind
    | apply keeps_try_except
    | match goal with
      | |- match (if ?b then _ else _) with _ => _ end => destruct b
      | |- match Some _ with _ => _ end => cbv beta iota
      | |- match None with _ => _ end => cbv beta iota
      | |- keeps _ (match ?x with _ => _ end) => destruct x
      | |- keeps _ (if ?x then _ else _) => destruct x
      end ].

Lemma keeps_get_balance : keeps R (get_balance E B C).
Proof.
  unfold get_balance, new_GetStarsStatusRequest.
  keeps_go;
    match goal with
    | H : _ = Ok ?a |- keeps R (call E ?a) =>
        apply R_read; unfold new_GetStarsStatusRequest in H;
        try destruct (status_has_peer _); inversion H; reflexivity
    end.
Qed.

Lemma keeps_resolve_peer pname : keeps R (resolve_peer E B pname).
Proof.
  unfold resolve_peer. keeps_go.
  intros s. destruct (get_input_entity E _ (world s)) as [r w]. cbn.
  apply R_world.
Qed.

Lemma keeps_report text : keeps R (report E C text).
Proof.
  intros s. unfold report.
  destruct (send_message E (REPORT_PEER C) text (world s)) as [[e |] w];
    [| apply R_world].
  eapply R_trans; [apply (R_world w) | apply (R_log WARNING _ _)].
Qed.

Lemma keeps_cycle_item pname p saved acc :
  keeps R (cycle_item E B C pname p saved acc).
Proof. unfold cycle_item. keeps_go. Qed.

Lemma keeps_for_each A (body : saved_gift -> A -> M W A) gifts :
  (forall g acc, keeps R (body g acc)) ->
  forall acc, keeps R (for_each body gifts acc).
Proof.
  intros Hb. induction gifts as [| g rest IH]; intros acc; cbn.
  - apply keeps_ret.
  - apply keeps_bind; [apply Hb | exact IH].
Qed.

Lemma keeps_iter_pages A (body : saved_gift -> A -> M W A) fuel p limit :
  (forall g acc, keeps R (body g acc)) ->
  forall offset acc, keeps R (iter_pages E fuel p limit offset body acc).
Proof.
  intros Hb. induction fuel as [| fuel IH]; intros offset acc; cbn.
  - apply keeps_ret.
  - apply keeps_bind; [apply R_read; reflexivity |]. intros res.
    apply keeps_bind; [apply keeps_for_each, Hb |]. intros acc'.
    apply keeps_bind; [apply R_inc |]. intros _.
    destruct (continues (next_offset_of res)); [apply IH | apply keeps_ret].
Qed.

Lemma keeps_scan_peers fuel peers :
  forall t, keeps R (scan_peers E B C fuel peers t).
Proof.
  induction peers as [| pname rest IH]; intros t; cbn [scan_peers].
  - apply keeps_ret.
  - apply keeps_bind.
    + apply keeps_try_except.
      * apply keeps_bind; [apply keeps_resolve_peer |].
        intros p. apply keeps_ret.
      * keeps_go.
    + intros [p |]; [| apply IH].
      apply keeps_bind; [apply R_log |]. intros _.
      apply keeps_bind.
      * unfold iter_saved_gifts. apply keeps_iter_pages.
        intros g acc. apply keeps_cycle_item.
      * intros [[any t'] |]; [| apply keeps_ret].
        apply keeps_bind; [destruct any; [apply keeps_ret | apply R_log] |].
        intros _. apply IH.
Qed.

Lemma keeps_scan_and_upgrade_cycle fuel :
  keeps R (scan_and_upgrade_cycle E B C fuel).
Proof.
  unfold scan_and_upgrade_cycle.
  apply keeps_bind; [intros s; apply keeps_gauge_set |]. intros _.
  apply keeps_bind; [apply R_inc |]. intros _.
  apply keeps_bind.
  { apply keeps_try_except.
    - apply keeps_bind; [apply keeps_get_balance |]. keeps_go.
    - keeps_go. }
  intros bal.
  apply keeps_bind; [apply keeps_scan_peers |].
  intros [t |]; [| apply keeps_ret].
  apply keeps_bind; [intros s; apply keeps_report | intros _; apply keeps_ret].
Qed.

Lemma keeps_main_try_cycle fuel : keeps R (main_try_cycle E B C fuel).
Proof.
  unfold main_try_cycle. apply keeps_try_except.
  - apply keeps_scan_and_upgrade_cycle.
  - keeps_go.
Qed.

End Keeps.


(** ** Nothing is taken back *)

Section Evolves.
Context {W : Type}.
Variable E : env W.
Variable B : builtins.
Variable C : config.

Lemma evolves_refl (s : machine W) : evolves s s.
Proof. unfold evolves. repeat split; try reflexivity; tauto. Qed.

Lemma evolves_trans (a b c : machine W) :
  evolves a b -> evolves b c -> evolves a c.
Proof.
  unfold evolves.
  intros (H1 & H2 & H3 & H4 & H5 & H6 & H7)
         (K1 & K2 & K3 & K4 & K5 & K6 & K7).
  repeat split; try (etrans; eassumption).
  - apply K7, H7. assumption.
  - etrans; [apply H7 | apply K7, H7]; assumption.
Qed.

Ltac evolves_same :=
  unfold evolves; cbn;
  repeat split;
    first [ reflexivity | assumption | eexists; give_suffix ].

Lemma evolves_world w (s : machine W) : evolves s (set_world w s).
Proof. evolves_same. Qed.

Lemma evolves_inc m n : keeps evolves (@inc W m n).
Proof. intros s. evolves_same. Qed.

Lemma evolves_log l t : keeps evolves (@log W l t).
Proof. intros s. evolves_same. Qed.

Lemma evolves_sleep n : keeps evolves (@sleep W n).
Proof. intros s. evolves_same. Qed.

Lemma evolves_call req : keeps evolves (call E req).
Proof.
  intros s. unfold call. destruct (client E req (world s)) as [r w].
  evolves_same.
Qed.

(** One run of the engine. *)
Lemma evolves_try_upgrade_one saved p bal :
  keeps evolves (try_upgrade_one E B C saved p bal).
Proof.
  intros s.
  destruct (try_upgrade_one E B C saved p bal s) as [r s'] eqn:H.
  cbn [snd].
  unfold_engine H. run_all H.
  all: inversion H; subst; clear H.
  all: unfold evolves; cbn [STATE STATE_DB AUDIT_JSONL sent counters
                             logger slept].
  all: repeat split.
  all: try reflexivity.
  all: try (eexists; give_suffix).
  all: try (apply insert_subseteq; assumption).
  all: try assumption.
  all: try (etrans; [eassumption | apply insert_subseteq; assumption]).
Qed.

Lemma evolves_scan_and_upgrade_cycle fuel :
  keeps evolves (scan_and_upgrade_cycle E B C fuel).
Proof.
  apply keeps_scan_and_upgrade_cycle;
    auto using evolves_refl, evolves_world, evolves_inc, evolves_log,
      evolves_sleep, evolves_call, evolves_try_upgrade_one.
  apply evolves_trans.
Qed.

Lemma evolves_main_try_cycle fuel :
  keeps evolves (main_try_cycle E B C fuel).
Proof.
  apply keeps_main_try_cycle;
    auto using evolves_refl, evolves_world, evolves_inc, evolves_log,
      evolves_sleep, evolves_call, evolves_try_upgrade_one.
  apply evolves_trans.
Qed.

(** A whole cycle takes no dedup record back: every record the
    process holds when the cycle starts is still there, with the
    timestamp it had, when the cycle ends, however the cycle ends. *)
Theorem cycle_keeps_dedup_records fuel s k t :
  STATE s !! k = Some t ->
  STATE (snd (scan_and_upgrade_cycle E B C fuel s)) !! k = Some t.
Proof.
  intros Hk.
  destruct (evolves_scan_and_upgrade_cycle fuel s) as (Hsub & _).
  exact (lookup_weaken _ _ _ _ Hk Hsub).
Qed.

(** A whole cycle only appends: the audit file, the list of requests
    sent, the metric calls and the log after the cycle start with what
    they were before it. *)
Theorem cycle_only_appends fuel s :
  let s' := snd (scan_and_upgrade_cycle E B C fuel s) in
  AUDIT_JSONL s `prefix_of` AUDIT_JSONL s' /\
  sent s `prefix_of` sent s' /\
  counters s `prefix_of` counters s' /\
  logger s `prefix_of` logger s'.
Proof.
  cbv zeta.
  destruct (evolves_scan_and_upgrade_cycle fuel s)
    as (_ & H2 & H3 & H4 & H5 & _).
  repeat split; assumption.
Qed.

(** The state file never holds a record the process does not know,
    and loses none: when that is so before a cycle, it is so after it,
    and every record the file held is still in it. *)
Theorem cycle_keeps_state_file_behind_store fuel s :
  STATE_DB s ⊆ STATE s ->
  let s' := snd (scan_and_upgrade_cycle E B C fuel s) in
  STATE_DB s' ⊆ STATE s' /\ STATE_DB s ⊆ STATE_DB s'.
Proof.
  intros Hinv. cbv zeta.
  destruct (evolves_scan_and_upgrade_cycle fuel s)
    as (_ & _ & _ & _ & _ & _ & H7).
  exact (H7 Hinv).
Qed.

End Evolves.


(** ** A dry cycle only reads *)

Section Quiet.
Context {W : Type}.
Variable E : env W.
Variable B : builtins.
Variable C : config.






End Quiet.


(** ** The balance query *)

Section Balance.
Context {W : Type}.
Variable E : env W.
Variable B : builtins.
Variable C : config.


End Balance.

(** ** Sources, pages and the main loop *)

Section Sources.
Context {W : Type}.
Variable E : env W.
Variable B : builtins.
Variable C : config.

Local Arguments try_upgrade_one : simpl never.
Local Arguments cycle_item : simpl never.
Local Arguments resolve_peer : simpl never.

(** A source that cannot be resolved is skipped: one error is counted
    and logged, the totals stay as they are, and the scan goes on with
    the next source exactly as if it had started there. *)
Theorem scan_peers_skips_unresolved_source fuel pname rest t s e s1 :
  resolve_peer E B pname s = (Raise e, s1) ->
  scan_peers E B C fuel (pname :: rest) t s
    = scan_peers E B C fuel rest t
        (snd (log ERROR ("resolve peer '" +:+ pname +:+ "' failed: "
                         +:+ exn_str e)
                (snd (inc MET_ERRORS 1 s1)))).
Proof.
  intros Hr. cbn [scan_peers].
  unfold bind at 1. unfold try_except at 1. unfold bind at 1.
  rewrite Hr. reflexivity.
Qed.

(** A catalog page that cannot be read ends the scan at once: the
    exception leaves [scan_peers] as it is, the sources after this one
    are not visited, and the last request sent is the one that
    failed. *)
Theorem scan_peers_stops_on_unread_page fuel pname rest t s p s1 e w2 :
  resolve_peer E B pname s = (Ok p, s1) ->
  client E (GetSavedStarGiftsRequest p "" (PAGE_LIMIT C) true) (world s1)
    = (Raise e, w2) ->
  let run := scan_peers E B C (S fuel) (pname :: rest) t s in
  fst run = Raise e /\
  sent (snd run)
    = sent s1 ++ [GetSavedStarGiftsRequest p "" (PAGE_LIMIT C) true] /\
  STATE (snd run) = STATE s1 /\
  AUDIT_JSONL (snd run) = AUDIT_JSONL s1 /\
  world (snd run) = w2.
Proof.
  intros Hr Hc. cbv zeta.
  destruct (scan_peers E B C (S fuel) (pname :: rest) t s) as [r s'] eqn:H.
  cbn [fst snd]. cbn [scan_peers] in H.
  unfold bind at 1 in H. unfold try_except at 1 in H.
  unfold bind at 1 in H. rewrite Hr in H. cbn iota beta in H.
  unfold ret at 1 in H. cbn iota beta in H.
  unfold bind at 1 in H. unfold log at 1 in H. cbn iota beta in H.
  unfold bind at 1 in H. unfold iter_saved_gifts in H.
  cbn [iter_pages] in H.
  unfold bind at 1 in H. unfold call at 1 in H. cbn [world] in H.
  rewrite Hc in H. injection H as <- <-.
  cbn. repeat split; reflexivity.
Qed.

(** The reader has no bound of its own: against a service that hands
    out a non-empty cursor with every page it never finishes, whatever
    the fuel, and has sent as many requests as it was given fuel. *)
Theorem iter_saved_gifts_follows_every_cursor p limit :
  (forall offset w, exists gifts next w',
     client E (GetSavedStarGiftsRequest p offset limit true) w
       = (Ok (SavedStarGifts gifts (Some next)), w') /\ next <> "") ->
  forall fuel s,
    let run := collect_saved_gifts E fuel p limit s in
    fst run = Ok None /\
    length (sent (snd run)) = (length (sent s) + fuel)%nat.
Proof.
  intros Hsvc fuel s. cbv zeta.
  unfold collect_saved_gifts, iter_saved_gifts.
  cut (forall fuel s offset (acc : list saved_gift),
         fst (iter_pages E fuel p limit offset
                (fun g acc => ret (acc ++ [g])) acc s) = Ok None /\
         length (sent (snd (iter_pages E fuel p limit offset
                              (fun g acc => ret (acc ++ [g])) acc s)))
           = (length (sent s) + fuel)%nat).
  { intros Hgen. apply Hgen. }
  clear fuel s.
  induction fuel as [| fuel IH]; intros s offset acc.
  - cbn. split; [reflexivity | lia].
  - destruct (Hsvc offset (world s)) as (gifts & next & w' & Hc & Hne).
    assert (Hn : String.eqb next "" = false)
      by (apply String.eqb_neq; exact Hne).
    destruct (iter_pages E (S fuel) p limit offset _ acc s)
      as [r s'] eqn:Hrun.
    cbn [iter_pages] in Hrun.
    unfold bind at 1 in Hrun. unfold call at 1 in Hrun. rewrite Hc in Hrun.
    unfold bind at 1 in Hrun. rewrite for_each_collect in Hrun.
    unfold bind at 1 in Hrun. unfold inc at 1 in Hrun.
    cbn [next_offset_of continues] in Hrun. rewrite Hn in Hrun.
    match type of Hrun with
    | iter_pages E fuel p limit next _ ?a ?st = _ =>
        destruct (IH st next a) as [Hr Hl]
    end.
    rewrite Hrun in Hr, Hl. cbn [fst snd] in *. cbn [sent] in Hl.
    rewrite length_app in Hl. cbn in Hl.
    split; [exact Hr | lia].
Qed.

(** The [try] statement of the main loop absorbs every failure of a
    cycle: it never raises, whatever the cycle raised. *)
Theorem main_try_cycle_never_raises fuel s :
  exists r, fst (main_try_cycle E B C fuel s) = Ok r.
Proof.
  unfold main_try_cycle, try_except.
  destruct (scan_and_upgrade_cycle E B C fuel s) as [[r | e] s1].
  - eauto.
  - destruct e; cbn; eauto.
Qed.

(** A flood wait that leaves the cycle is served by the main loop: the
    counter of flood-wait seconds grows by exactly the seconds of the
    exception, the loop sleeps one second more than that, and no error
    is counted.  Any other exception is counted as one error, with no
    sleep. *)
Theorem main_try_cycle_serves_flood_wait fuel s e :
  let cycle := scan_and_upgrade_cycle E B C fuel s in
  let run := main_try_cycle E B C fuel s in
  fst cycle = Raise e ->
  fst run = Ok (Some tt) /\
  STATE (snd run) = STATE (snd cycle) /\
  AUDIT_JSONL (snd run) = AUDIT_JSONL (snd cycle) /\
  sent (snd run) = sent (snd cycle) /\
  match e with
  | FloodWaitError seconds =>
      counters (snd run) = counters (snd cycle) ++ [(MET_FLOODWAIT, seconds)]
      /\ slept (snd run) = slept (snd cycle) ++ [seconds + 1]
  | _ =>
      counters (snd run) = counters (snd cycle) ++ [(MET_ERRORS, 1)]
      /\ slept (snd run) = slept (snd cycle)
  end.
Proof.
  cbv zeta. unfold main_try_cycle, try_except.
  destruct (scan_and_upgrade_cycle E B C fuel s) as [[r | e'] s1];
    cbn [fst snd]; [discriminate |].
  intros [= ->]. destruct e; cbn; repeat split; reflexivity.
Qed.

End Sources.


(** ** The totals of a cycle *)

Section Accounting.
Context {W : Type}.
Variable E : env W.
Variable B : builtins.
Variable C : config.

Local Arguments try_upgrade_one : simpl never.
Local Arguments cycle_item : simpl never.

Lemma accounted_refl t : accounted t t.
Proof. unfold accounted. lia. Qed.

Lemma accounted_trans a b c : accounted a b -> accounted b c -> accounted a c.
Proof. unfold accounted. lia. Qed.

Lemma cycle_item_accounted pname p saved acc s :
  exists a t,
    fst (cycle_item E B C pname p saved acc s) = Ok (a, t) /\
    total_found t = total_found (snd acc) + 1 /\
    accounted (snd acc) t.
Proof.
  destruct (try_upgrade_one E B C saved p (balance (snd acc)) s)
    as [[[[ok m] sp] | e] s1] eqn:H.
  - rewrite (cycle_item_after_Ok _ _ _ _ _ _ _ _ _ _ _ _ H).
    cbn [fst]. eexists _, _. split; [reflexivity |].
    pose proof (try_upgrade_one_spent E B C saved p (balance (snd acc)) s
                  ok m sp) as Hsp.
    rewrite H in Hsp. specialize (Hsp eq_refl).
    unfold accounted.
    destruct Hsp as [[-> _] | (-> & -> & Hpos & Hle & _)].
    + destruct ok; cbn; lia.
    + cbn. assert (Hlt : (0 <? sp) = true) by lia. rewrite Hlt. lia.
  - destruct (cycle_item_after_Raise E B C pname _ _ _ _ _ _ H) as [Hr _].
    eexists _, _. split; [exact Hr |]. unfold accounted. cbn. lia.
Qed.

(** The [for] over a page counts every gift of the page as found. *)
Lemma for_each_accounted pname p gifts :
  forall acc s,
  exists a t,
    fst (for_each (cycle_item E B C pname p) gifts acc s) = Ok (a, t) /\
    total_found t = total_found (snd acc) + Z.of_nat (length gifts) /\
    accounted (snd acc) t.
Proof.
  induction gifts as [| g rest IH]; intros acc s.
  - destruct acc as [a t]. cbn. eexists _, _.
    split; [reflexivity |]. split; [lia | apply accounted_refl].
  - cbn [for_each]. unfold bind.
    destruct (cycle_item_accounted pname p g acc s)
      as (a1 & t1 & Hr & Hf & Hacc).
    destruct (cycle_item E B C pname p g acc s) as [r1 s1].
    cbn in Hr. subst r1.
    destruct (IH (a1, t1) s1) as (a2 & t2 & Hr2 & Hf2 & Hacc2).
    exists a2, t2. split; [exact Hr2 |]. cbn [snd] in *.
    split; [rewrite Hf2, Hf; cbn [length]; lia |].
    eapply accounted_trans; eassumption.
Qed.

Lemma iter_pages_accounted pname p limit fuel :
  forall offset acc s a t,
  fst (iter_pages E fuel p limit offset (cycle_item E B C pname p) acc s)
    = Ok (Some (a, t)) ->
  accounted (snd acc) t.
Proof.
  induction fuel as [| fuel IH]; intros offset acc s a t; cbn [iter_pages].
  - discriminate.
  - unfold bind at 1.
    destruct (call E _ s) as [[res | e] s1]; [| discriminate].
    unfold bind at 1.
    destruct (for_each_accounted pname p (gifts_of res) acc s1)
      as (a1 & t1 & Hr & _ & Hacc).
    destruct (for_each _ (gifts_of res) acc s1) as [r1 s2].
    cbn in Hr. subst r1. unfold bind at 1. unfold inc at 1.
    destruct (continues (next_offset_of res)) as [offset' |].
    + intros H. apply IH in H. cbn [snd] in H.
      eapply accounted_trans; eassumption.
    + unfold ret. cbn. intros H. injection H as -> ->. exact Hacc.
Qed.

(** The totals of a scan account for the balance: over all the pages
    of all the sources, the running balance and the total spent always
    add up to what they added up to at the start, the total spent
    never goes down, and the gifts upgraded are never more than the
    gifts found. *)
Theorem scan_peers_totals_account fuel peers :
  forall t s t',
  fst (scan_peers E B C fuel peers t s) = Ok (Some t') ->
  balance t' + total_spent t' = balance t + total_spent t /\
  total_spent t <= total_spent t' /\
  total_found t <= total_found t' /\
  0 <= total_upgraded t' - total_upgraded t
    <= total_found t' - total_found t.
Proof.
  cut (forall t s t',
         fst (scan_peers E B C fuel peers t s) = Ok (Some t') ->
         accounted t t').
  { intros Hc t s t' H. exact (Hc t s t' H). }
  induction peers as [| pname rest IH]; intros t s t'.
  - cbn. intros H. injection H as ->. apply accounted_refl.
  - cbn [scan_peers]. unfold bind at 1.
    destruct (try_except _ _ s) as [[[p |] | e] s1];
      [| apply IH | discriminate].
    unfold bind at 1. unfold log at 1. unfold bind at 1.
    destruct (iter_saved_gifts E fuel p (PAGE_LIMIT C)
                (cycle_item E B C pname p) (false, t) _)
      as [[[[a t1] |] | e] s2] eqn:Hscan; try discriminate.
    unfold iter_saved_gifts in Hscan.
    match type of Hscan with
    | iter_pages _ _ _ _ _ _ _ ?st = _ =>
        pose proof (iter_pages_accounted pname p (PAGE_LIMIT C)
                      fuel "" (false, t) st a t1) as Hpages
    end.
    rewrite Hscan in Hpages. specialize (Hpages eq_refl). cbn in Hpages.
    unfold bind at 1.
    destruct a; cbn; intros H; apply IH in H;
      eapply accounted_trans; eassumption.
Qed.

End Accounting.

(** ** The state file across a restart *)

Section Restart.
Context {W : Type}.
Variable E : env W.
Variable B : builtins.
Variable C : config.

(** The engine answers [skip: already_done] only for a gift whose
    record is in the store, and names its key. *)
Lemma already_done_means_recorded saved p bal s ok k sp :
  fst (try_upgrade_one E B C saved p bal s)
    = Ok (ok, Skip_already_done k, sp) ->
  is_Some (STATE s !! state_key (peer_str p) k).
Proof.
  destruct (try_upgrade_one E B C saved p bal s) as [r s'] eqn:H.
  cbn [fst]. intros Hr. subst r.
  unfold_engine H. run_all H.
  all: inversion H; subst; clear H.
  all: eauto.
Qed.

(** An upgrade survives a restart: after a run that answered [ok], a
    process started again on the files that run left holds the same
    dedup store, and its engine, given the same gift, sends nothing and
    answers [skip: already_done] (or raises on its own audit line). *)
Theorem upgrade_survives_restart saved p bal s m sp :
  let run := try_upgrade_one E B C saved p bal s in
  fst run = Ok (true, m, sp) ->
  STATE (restart (snd run)) = STATE (snd run) /\
  forall bal2,
    let again := try_upgrade_one E B C saved p bal2 (restart (snd run)) in
    sent (snd again) = [] /\
    STATE (snd again) = STATE (snd run) /\
    exists key inp kt,
      _gift_keys saved p = Ok (key, inp, kt) /\
      (fst again = Ok (false, Skip_already_done key, 0)
       \/ exists msg, fst again = Raise (OSError msg)).
Proof.
  cbv zeta. intros Hr.
  destruct (try_upgrade_one_dedup E B C saved p bal s)
    as (evs & _ & [(_ & _ & _ & Hnok)
                  | (_ & key & inp & kt & t & Hk & _ & Hst & Hfin)]).
  { now destruct (Hnok m sp). }
  cbv zeta in Hst, Hfin.
  destruct Hfin as [(Hdb & _) | (_ & msg & _ & Hnr)];
    [| now destruct (Hnr true m sp)].
  assert (Hre : STATE (restart (snd (try_upgrade_one E B C saved p bal s)))
                = STATE (snd (try_upgrade_one E B C saved p bal s))).
  { unfold restart, process_start. cbn. exact Hdb. }
  split; [exact Hre |]. intros bal2.
  destruct (try_upgrade_one_Ok_flags E B C _ _ _ _ _ Hr)
    as (need & prepaid & can_up & Hn).
  assert (Hin : is_Some (STATE (restart (snd (try_upgrade_one E B C saved p
                                                bal s)))
                         !! state_key (peer_str p) key)).
  { rewrite Hre, Hst. exists t. apply lookup_insert_eq. }
  destruct (try_upgrade_one_already_done E B C saved p bal2 _ _ _ _ _ _ _
              Hn Hk Hin) as (Hsent & Hst2 & _ & Hres).
  cbv zeta in Hres.
  split; [rewrite Hsent; reflexivity |].
  split; [rewrite Hst2; exact Hre |].
  exists key, inp, kt. split; [exact Hk |].
  destruct (fst (audit_write E _ _)) as [msg |].
  - right. exists msg. apply Hres.
  - left. apply Hres.
Qed.

(** A record that could not be saved is only known to the running
    process: when a run changed the store but raised, the state file is
    what it was before the run, so a process started again reads the
    store of the old file. *)
Theorem unsaved_record_is_lost_on_restart saved p bal s e :
  let run := try_upgrade_one E B C saved p bal s in
  fst run = Raise e ->
  STATE (snd run) <> STATE s ->
  (exists msg, e = OSError msg) /\
  STATE (restart (snd run)) = STATE_DB s /\
  (STATE_DB s = STATE s ->
   exists key inp kt,
     _gift_keys saved p = Ok (key, inp, kt) /\
     is_Some (STATE (snd run) !! state_key (peer_str p) key) /\
     STATE (restart (snd run)) !! state_key (peer_str p) key = None).
Proof.
  cbv zeta. intros Hr Hch.
  destruct (try_upgrade_one_dedup E B C saved p bal s)
    as (evs & _ & [(_ & Hsame & _)
                  | (_ & key & inp & kt & t & Hk & Hfresh & Hst & Hfin)]).
  { cbv zeta in Hsame. contradiction. }
  cbv zeta in Hst, Hfin.
  destruct Hfin as [(_ & m & sp & Hok) | (Hdb & msg & Hmsg & _)].
  { rewrite Hr in Hok. discriminate. }
  rewrite Hr in Hmsg. injection Hmsg as ->.
  split; [eauto |].
  assert (Hre : STATE (restart (snd (try_upgrade_one E B C saved p bal s)))
                = STATE_DB s).
  { unfold restart, process_start. cbn. exact Hdb. }
  split; [exact Hre |]. intros Hsync.
  exists key, inp, kt. split; [exact Hk |]. split.
  - rewrite Hst. exists t. apply lookup_insert_eq.
  - rewrite Hre, Hsync. exact Hfresh.
Qed.

(** A state file that is missing or cannot be parsed is an empty
    store: a process started on it never answers
    [skip: already_done], whatever gift it is given. *)
Theorem unreadable_state_file_is_fresh_start f audit w saved p bal
  ok k sp :
  f = NoFile \/ f = Unreadable ->
  fst (try_upgrade_one E B C saved p bal (process_start f audit w))
    <> Ok (ok, Skip_already_done k, sp).
Proof.
  intros Hf Hr. apply already_done_means_recorded in Hr.
  destruct Hr as [t Ht].
  destruct Hf as [-> | ->]; cbn in Ht; rewrite lookup_empty in Ht;
    discriminate.
Qed.

End Restart.


(** ** More concrete runs *)

Section MoreRuns.
Import Scripted.

Lemma as_int_stars_field_order_witness :
  field_int runtime [("amount", PyInt 50); ("nanos", PyInt 0)] "amount"
    = Some 50 /\
  as_int_stars runtime (stars_amount 50 0) = Ok 50.
Proof.
  split; [reflexivity |].
  apply (proj1 (as_int_stars_field_order runtime
                  [("amount", PyInt 50); ("nanos", PyInt 0)] _ None)).
  reflexivity.
Defined.

Lemma gift_need_inner_descriptor_decides_witness :
  as_int_stars runtime (default (PyInt 0) (upgrade_stars inner_none_gift))
    = Ok 50 /\
  gift inner_none_gift = Some {| sg_upgrade_stars := Some PyNone |} /\
  _gift_need_and_flags runtime inner_none_gift = Ok (0, false, true).
Proof.
  split; [reflexivity |]. split; [reflexivity |].
  destruct (proj2 (gift_need_inner_descriptor_decides runtime
                     inner_none_gift) 50 eq_refl) as (_ & _ & Hnone & _).
  exact (Hnone _ eq_refl eq_refl).
Defined.

Lemma clamp_page_limit_in_range_witness :
  100 < 250 /\ clamp_page_limit 250 = 100.
Proof.
  split; [lia |].
  destruct (clamp_page_limit_in_range 250) as (_ & _ & _ & Hhi & _).
  apply Hhi. lia.
Defined.

Lemma cycle_item_never_sleeps_witness :
  let s := boot (healthy []) in
  let boom :=
    RuntimeError
      "Не удалось собрать InputSavedStarGift (нет msg_id/saved_id)" in
  fst (try_upgrade_one scripted runtime live no_scheme_gift InputPeerSelf
         (balance (snd (start_totals 100))) s) = Raise boom /\
  is_RPCError boom = false /\
  slept (snd (cycle_item scripted runtime live "me" InputPeerSelf
                no_scheme_gift (start_totals 100) s)) = slept s.
Proof.
  intros s boom.
  assert (Hr : fst (try_upgrade_one scripted runtime live no_scheme_gift
                      InputPeerSelf (balance (snd (start_totals 100))) s)
               = Raise boom) by (vm_compute; reflexivity).
  destruct (cycle_item_never_sleeps scripted runtime live "me" InputPeerSelf
              no_scheme_gift (start_totals 100) s) as (Hcls & Hsl & _).
  split; [exact Hr |]. split; [exact (Hcls boom Hr) | exact Hsl].
Defined.

Lemma try_upgrade_one_pays_at_most_once_witness :
  let s := boot (healthy [Ok (PaymentForm 9); Ok Updates]) in
  let run := try_upgrade_one scripted runtime live (paid_gift 5 50)
               InputPeerSelf 100 s in
  fst run = Ok (true, Paid_ok 50, 50) /\
  exists reqs,
    sent (snd run) = sent s ++ reqs /\
    (length reqs <= 5)%nat /\
    forallb is_mutating reqs = true /\
    (length (List.filter is_send_form reqs) <= 1)%nat /\
    forall r, In r reqs -> is_send_form r = true ->
      (exists n, Paid_ok 50 = Paid_ok n)
      \/ (exists e, Paid_ok 50 = Paid_error e).
Proof.
  intros s run.
  assert (Hr : fst run = Ok (true, Paid_ok 50, 50))
    by (vm_compute; reflexivity).
  split; [exact Hr |].
  destruct (try_upgrade_one_pays_at_most_once scripted runtime live
              (paid_gift 5 50) InputPeerSelf 100 s)
    as (reqs & H1 & H2 & H3 & H4 & H5).
  exists reqs. repeat split; try assumption.
  exact (H5 true (Paid_ok 50) 50 Hr).
Defined.

Lemma try_upgrade_one_counters_match_answer_witness :
  let s := boot (healthy [Ok (PaymentForm 9); Ok Updates]) in
  let run := try_upgrade_one scripted runtime live (paid_gift 5 50)
               InputPeerSelf 100 s in
  fst run = Ok (true, Paid_ok 50, 50) /\
  exists cs,
    counters (snd run) = counters s ++ cs /\
    counter_value MET_UPGR_SUCCESS cs = 1 /\
    counter_value MET_ERRORS cs = 0 /\
    counter_value MET_GIFTS_UPGRADABLE cs = 1 /\
    counter_value MET_UPGR_SUCCESS cs
      <= counter_value MET_UPGR_ATTEMPTS cs <= 2 /\
    counter_value MET_FLOODWAIT cs = 0.
Proof.
  intros s run.
  assert (Hr : fst run = Ok (true, Paid_ok 50, 50))
    by (vm_compute; reflexivity).
  split; [exact Hr |].
  exact (try_upgrade_one_counters_match_answer scripted runtime live
           (paid_gift 5 50) InputPeerSelf 100 s true (Paid_ok 50) 50 Hr).
Defined.

Lemma prepaid_success_costs_nothing_witness :
  let s := boot (healthy [Ok Updates]) in
  let run := try_upgrade_one scripted runtime live (prepaid_gift 5)
               InputPeerSelf 0 s in
  fst run = Ok (true, Prepaid_ok, 0) /\
  true = true /\ 0 = 0 /\ DRY_RUN live = false /\
  (exists need can_up,
     _gift_need_and_flags runtime (prepaid_gift 5)
       = Ok (need, true, can_up)) /\
  exists reqs,
    sent (snd run) = sent s ++ reqs /\
    (1 <= length reqs <= 2)%nat /\
    forallb is_upgrade_request reqs = true /\
    forallb (fun r => negb (is_payment_request r)) reqs = true.
Proof.
  intros s run.
  assert (Hr : fst run = Ok (true, Prepaid_ok, 0))
    by (vm_compute; reflexivity).
  split; [exact Hr |].
  exact (prepaid_success_costs_nothing scripted runtime live (prepaid_gift 5)
           InputPeerSelf 0 s true 0 Hr).
Defined.

Lemma prepaid_rejection_falls_through_witness :
  let s := boot (healthy [Raise (FloodWaitError 30); Ok (PaymentForm 9);
                          Ok Updates]) in
  let g := prepaid_gift_costing 5 50 in
  let inp := InputSavedStarGiftUser 5 in
  let inv := InputInvoiceStarGiftUpgrade inp (Some true) in
  let run := try_upgrade_one scripted runtime live g InputPeerSelf 100 s in
  (DRY_RUN live = false /\
   upgrade_has_keep (TL_LAYER live) = true /\
   _gift_need_and_flags runtime g = Ok (50, true, true) /\
   _gift_keys g InputPeerSelf = Ok ("user_msg:5", inp, "user_msg") /\
   STATE s !! state_key (peer_str InputPeerSelf) "user_msg:5" = None /\
   client scripted (UpgradeStarGiftRequest inp (Some true)) (world s)
     = (Raise (FloodWaitError 30),
        healthy [Ok (PaymentForm 9); Ok Updates]) /\
   is_RPCError (FloodWaitError 30) = true /\
   0 < 50 /\ 50 <= 100) /\
  fst run = Ok (true, Paid_ok 50, 50) /\
  STATE (snd run)
    = <[state_key (peer_str InputPeerSelf) "user_msg:5" := 1700000000]>
        (STATE s) /\
  sent (snd run)
    = sent s ++ [UpgradeStarGiftRequest inp (Some true);
                 GetPaymentFormRequest inv;
                 SendStarsFormRequest 9 inv].
Proof.
  intros s g inp inv run.
  split; [repeat split; try (vm_compute; reflexivity); lia |].
  refine (proj2 (proj2
            (prepaid_rejection_falls_through scripted runtime live g
               InputPeerSelf 100 s 50 true "user_msg:5" inp "user_msg"
               (world s) (FloodWaitError 30)
               (healthy [Ok (PaymentForm 9); Ok Updates])
               eq_refl eq_refl _ _ _ eq_refl eq_refl eq_refl))
            (PaymentForm 9) (healthy [Ok Updates]) 9 Updates (healthy [])
            (healthy []) (healthy [])
            _ _ eq_refl eq_refl eq_refl eq_refl eq_refl eq_refl);
    try lia; vm_compute; reflexivity.
Defined.

Lemma upgrade_paid_submits_the_invoice_it_quoted_witness :
  let s := boot (healthy [Ok (PaymentForm 9); Ok Updates]) in
  let inp := InputSavedStarGiftUser 5 in
  let run := _upgrade_paid scripted live inp 50 true s in
  fst run = Ok tt /\
  exists earlier inv fid,
    sent (snd run)
      = sent s ++ earlier
               ++ [GetPaymentFormRequest inv; SendStarsFormRequest fid inv] /\
    ((earlier = [] /\
      inv = InputInvoiceStarGiftUpgrade inp (Some true)) \/
     (earlier = [GetPaymentFormRequest
                   (InputInvoiceStarGiftUpgrade inp (Some true))] /\
      inv = InputInvoiceStarGiftUpgrade inp None)) /\
    STATE (snd run) = STATE s /\
    AUDIT_JSONL (snd run) = AUDIT_JSONL s.
Proof.
  intros s inp run.
  assert (Hr : fst run = Ok tt) by (vm_compute; reflexivity).
  split; [exact Hr |].
  exact (upgrade_paid_submits_the_invoice_it_quoted scripted live inp 50 true
           s Hr).
Defined.


Lemma scan_peers_skips_unresolved_source_witness :
  let s := boot (healthy []) in
  let e := ValueError "Cannot find any entity" in
  let t := snd (start_totals 100) in
  resolve_peer unknown_entities runtime "@gone" s = (Raise e, s) /\
  scan_peers unknown_entities runtime live 3 ["@gone"; "me"] t s
    = scan_peers unknown_entities runtime live 3 ["me"] t
        (snd (log ERROR ("resolve peer '" +:+ "@gone" +:+ "' failed: "
                         +:+ exn_str e)
                (snd (inc MET_ERRORS 1 s)))).
Proof.
  intros s e t.
  assert (Hr : resolve_peer unknown_entities runtime "@gone" s = (Raise e, s))
    by reflexivity.
  split; [exact Hr |].
  exact (scan_peers_skips_unresolved_source unknown_entities runtime live 3
           "@gone" ["me"] t s e s Hr).
Defined.

Lemma scan_peers_stops_on_unread_page_witness :
  let s := boot (healthy [Raise (FloodWaitError 30)]) in
  let t := snd (start_totals 100) in
  let run := scan_peers scripted runtime live 3 ["me"; "@next"] t s in
  (resolve_peer scripted runtime "me" s = (Ok InputPeerSelf, s) /\
   client scripted
     (GetSavedStarGiftsRequest InputPeerSelf "" (PAGE_LIMIT live) true)
     (world s) = (Raise (FloodWaitError 30), healthy [])) /\
  fst run = Raise (FloodWaitError 30) /\
  sent (snd run)
    = sent s ++ [GetSavedStarGiftsRequest InputPeerSelf ""
                   (PAGE_LIMIT live) true] /\
  STATE (snd run) = STATE s /\
  AUDIT_JSONL (snd run) = AUDIT_JSONL s /\
  world (snd run) = healthy [].
Proof.
  intros s t run.
  assert (Hr : resolve_peer scripted runtime "me" s = (Ok InputPeerSelf, s))
    by reflexivity.
  assert (Hc : client scripted
                 (GetSavedStarGiftsRequest InputPeerSelf ""
                    (PAGE_LIMIT live) true) (world s)
               = (Raise (FloodWaitError 30), healthy [])) by reflexivity.
  split; [split; assumption |].
  exact (scan_peers_stops_on_unread_page scripted runtime live 2 "me"
           ["@next"] t s InputPeerSelf s (FloodWaitError 30) (healthy [])
           Hr Hc).
Defined.

Lemma iter_saved_gifts_follows_every_cursor_witness :
  (forall offset w, exists gifts next w',
     client endless_service
       (GetSavedStarGiftsRequest InputPeerSelf offset 100 true) w
       = (Ok (SavedStarGifts gifts (Some next)), w') /\ next <> "") /\
  forall fuel s,
    let run := collect_saved_gifts endless_service fuel InputPeerSelf 100 s in
    fst run = Ok None /\
    length (sent (snd run)) = (length (sent s) + fuel)%nat.
Proof.
  assert (Hsvc : forall offset w, exists gifts next w',
            client endless_service
              (GetSavedStarGiftsRequest InputPeerSelf offset 100 true) w
              = (Ok (SavedStarGifts gifts (Some next)), w') /\ next <> "").
  { intros offset w. exists (Some []), "next", w.
    split; [reflexivity | discriminate]. }
  split; [exact Hsvc |].
  exact (iter_saved_gifts_follows_every_cursor endless_service InputPeerSelf
           100 Hsvc).
Defined.

Lemma main_try_cycle_serves_flood_wait_witness :
  let s := boot (healthy [Ok (StarsStatus (Some (PyInt 100)));
                          Raise (FloodWaitError 30)]) in
  let cycle := scan_and_upgrade_cycle scripted runtime live 5 s in
  let run := main_try_cycle scripted runtime live 5 s in
  fst cycle = Raise (FloodWaitError 30) /\
  fst run = Ok (Some tt) /\
  STATE (snd run) = STATE (snd cycle) /\
  AUDIT_JSONL (snd run) = AUDIT_JSONL (snd cycle) /\
  sent (snd run) = sent (snd cycle) /\
  counters (snd run) = counters (snd cycle) ++ [(MET_FLOODWAIT, 30)] /\
  slept (snd run) = slept (snd cycle) ++ [30 + 1].
Proof.
  intros s cycle run.
  assert (Hr : fst cycle = Raise (FloodWaitError 30))
    by (vm_compute; reflexivity).
  split; [exact Hr |].
  exact (main_try_cycle_serves_flood_wait scripted runtime live 5 s
           (FloodWaitError 30) Hr).
Defined.

Lemma cycle_keeps_dedup_records_witness :
  let s := seeded "InputPeerSelf():user_msg:1" 1600000000
             (healthy [Ok (StarsStatus (Some (PyInt 100)));
                       Ok (SavedStarGifts (Some [paid_gift 5 50]) None);
                       Ok (PaymentForm 9); Ok Updates]) in
  STATE s !! "InputPeerSelf():user_msg:1" = Some 1600000000 /\
  STATE (snd (scan_and_upgrade_cycle scripted runtime live 5 s))
    !! "InputPeerSelf():user_msg:1" = Some 1600000000.
Proof.
  intros s.
  assert (Hk : STATE s !! "InputPeerSelf():user_msg:1" = Some 1600000000)
    by (vm_compute; reflexivity).
  split; [exact Hk |].
  exact (cycle_keeps_dedup_records scripted runtime live 5 s _ _ Hk).
Defined.

Lemma cycle_keeps_state_file_behind_store_witness :
  let s := boot (healthy [Ok (StarsStatus (Some (PyInt 100)));
                          Ok (SavedStarGifts (Some [paid_gift 5 50]) None);
                          Ok (PaymentForm 9); Ok Updates]) in
  let s' := snd (scan_and_upgrade_cycle scripted runtime live 5 s) in
  STATE_DB s ⊆ STATE s /\
  STATE_DB s' ⊆ STATE s' /\ STATE_DB s ⊆ STATE_DB s'.
Proof.
  intros s s'.
  assert (Hinv : STATE_DB s ⊆ STATE s) by reflexivity.
  split; [exact Hinv |].
  exact (cycle_keeps_state_file_behind_store scripted runtime live 5 s Hinv).
Defined.


Lemma scan_peers_totals_account_witness :
  let s := boot (healthy [Ok (SavedStarGifts
                                (Some [paid_gift 5 50; paid_gift 6 70])
                                None);
                          Ok (PaymentForm 9); Ok Updates]) in
  let t := snd (start_totals 100) in
  let t' := {| balance := 50; total_found := 2; total_upgraded := 1;
               total_spent := 50 |} in
  fst (scan_peers scripted runtime live 5 ["me"] t s) = Ok (Some t') /\
  balance t' + total_spent t' = balance t + total_spent t /\
  total_spent t <= total_spent t' /\
  total_found t <= total_found t' /\
  0 <= total_upgraded t' - total_upgraded t
    <= total_found t' - total_found t.
Proof.
  intros s t t'.
  assert (Hr : fst (scan_peers scripted runtime live 5 ["me"] t s)
               = Ok (Some t')) by (vm_compute; reflexivity).
  split; [exact Hr |].
  exact (scan_peers_totals_account scripted runtime live 5 ["me"] t s t' Hr).
Defined.

Lemma upgrade_survives_restart_witness :
  let s := boot (healthy [Ok (PaymentForm 9); Ok Updates]) in
  let run := try_upgrade_one scripted runtime live (paid_gift 5 50)
               InputPeerSelf 100 s in
  fst run = Ok (true, Paid_ok 50, 50) /\
  STATE (restart (snd run)) = STATE (snd run) /\
  forall bal2,
    let again := try_upgrade_one scripted runtime live (paid_gift 5 50)
                   InputPeerSelf bal2 (restart (snd run)) in
    sent (snd again) = [] /\
    STATE (snd again) = STATE (snd run) /\
    exists key inp kt,
      _gift_keys (paid_gift 5 50) InputPeerSelf = Ok (key, inp, kt) /\
      (fst again = Ok (false, Skip_already_done key, 0)
       \/ exists msg, fst again = Raise (OSError msg)).
Proof.
  intros s run.
  assert (Hr : fst run = Ok (true, Paid_ok 50, 50))
    by (vm_compute; reflexivity).
  split; [exact Hr |].
  exact (upgrade_survives_restart scripted runtime live (paid_gift 5 50)
           InputPeerSelf 100 s (Paid_ok 50) 50 Hr).
Defined.

Lemma unsaved_record_is_lost_on_restart_witness :
  let s := boot (flaky_state [Ok (PaymentForm 9); Ok Updates]
                   [Some "ENOSPC"]) in
  let run := try_upgrade_one scripted runtime live (paid_gift 5 50)
               InputPeerSelf 100 s in
  (fst run = Raise (OSError "ENOSPC") /\ STATE (snd run) <> STATE s) /\
  (exists msg, OSError "ENOSPC" = OSError msg) /\
  STATE (restart (snd run)) = STATE_DB s /\
  (STATE_DB s = STATE s ->
   exists key inp kt,
     _gift_keys (paid_gift 5 50) InputPeerSelf = Ok (key, inp, kt) /\
     is_Some (STATE (snd run) !! state_key (peer_str InputPeerSelf) key) /\
     STATE (restart (snd run)) !! state_key (peer_str InputPeerSelf) key
       = None).
Proof.
  intros s run.
  assert (Hr : fst run = Raise (OSError "ENOSPC"))
    by (vm_compute; reflexivity).
  assert (Hch : STATE (snd run) <> STATE s).
  { intros Heq.
    apply (f_equal (fun m => m !! "InputPeerSelf():user_msg:5")) in Heq.
    vm_compute in Heq. discriminate. }
  split; [split; assumption |].
  exact (unsaved_record_is_lost_on_restart scripted runtime live
           (paid_gift 5 50) InputPeerSelf 100 s (OSError "ENOSPC") Hr Hch).
Defined.

Lemma unreadable_state_file_is_fresh_start_witness :
  (Unreadable = NoFile \/ Unreadable = Unreadable) /\
  fst (try_upgrade_one scripted runtime live (paid_gift 5 50) InputPeerSelf
         100 (process_start Unreadable [] (healthy [])))
    <> Ok (false, Skip_already_done "user_msg:5", 0).
Proof.
  split; [right; reflexivity |].
  exact (unreadable_state_file_is_fresh_start scripted runtime live
           Unreadable [] (healthy []) (paid_gift 5 50) InputPeerSelf 100
           false "user_msg:5" 0 (or_intror eq_refl)).
Defined.

End MoreRuns.
